(** * The travel API of [server.py]: a shallow embedding and its properties

    The service keeps three collections of documents (destinations, trips,
    bookings) in a document store and answers nine routes.  The handlers are
    embedded as functions on an explicit store; the two things a handler
    takes from outside (sixteen random bytes for [uuid.uuid4], the clock for
    [datetime.now]) are arguments. *)

From Stdlib Require Import ZArith Ascii String List Lia.
From Stdlib Require Import Floats.SpecFloat.
From stdpp Require Import base option list strings gmap fin_maps.

Set Warnings "-register-all".

Local Open Scope string_scope.
Local Open Scope list_scope.
Local Open Scope Z_scope.

(** ** Timestamps

    A [datetime.datetime]: the calendar fields and, for an aware value, the
    offset of its [tzinfo] from UTC in minutes ([timezone.utc] is
    [Some 0]); [None] is a naive value. *)

Record datetime := mk_datetime {
  year : Z;
  month : Z;
  day : Z;
  hour : Z;
  minute : Z;
  second : Z;
  microsecond : Z;
  tzinfo : option Z
}.

(** ** Values and documents

    What a JSON body or a stored document holds.  [VOid] is the store's
    [ObjectId], [VDatetime] a structured timestamp. *)

Inductive value :=
| VNull
| VBool (b : bool)
| VInt (z : Z)
| VFloat (f : spec_float)
| VStr (s : string)
| VDatetime (d : datetime)
| VOid (n : nat)
| VList (l : list value)
| VObj (l : list (string * value)).

(** A Python [dict] with string keys. *)
Abbreviation doc := (gmap string value).

(** ** The document store

    A collection is the sequence of its documents in insertion order.  The
    store hands out [ObjectId]s from a counter. *)

Record database := mk_database {
  destinations : list doc;
  trips : list doc;
  bookings : list doc;
  next_oid : nat
}.

(** An equality filter such as [{"destination_id": X}]: every filter the
    handlers build compares a field with a string. *)
Definition query := list (string * string).

(** A projection such as [{"_id": 0}]: the keys to leave out. *)
Definition projection := list string.

Definition field_is (d : doc) (k s : string) : bool :=
  match d !! k with
  | Some (VStr s') => bool_decide (s' = s)
  | _ => false
  end.

Definition matches (q : query) (d : doc) : bool :=
  forallb (fun '(k, s) => field_is d k s) q.

Definition project (p : projection) (d : doc) : doc :=
  foldr (fun k acc => delete k acc) d p.

(** [collection.find(q, p)], a cursor over the matching documents. *)
Definition find (q : query) (p : projection) (c : list doc) : list doc :=
  project p <$> List.filter (matches q) c.

(** [cursor.to_list(n)]. *)
Definition to_list (n : nat) (cursor : list doc) : list doc := take n cursor.

(** [collection.find_one(q, p)]. *)
Definition find_one (q : query) (p : projection) (c : list doc) : option doc :=
  head (find q p c).

(** The driver gives a document without [_id] a fresh [ObjectId]. *)
Definition with_oid (n : nat) (d : doc) : doc :=
  match d !! "_id" with
  | Some _ => d
  | None => <["_id" := VOid n]> d
  end.

(** [collection.insert_one(d)], on a collection and the counter. *)
Definition insert_one (d : doc) (c : list doc) (n : nat) : list doc * nat :=
  (c ++ [with_oid n d], S n).

(** [collection.insert_many(ds)]. *)
Fixpoint insert_many (ds : list doc) (c : list doc) (n : nat) : list doc * nat :=
  match ds with
  | [] => (c, n)
  | d :: ds' => let '(c', n') := insert_one d c n in insert_many ds' c' n'
  end.

(** [collection.delete_many(q)]. *)
Definition delete_many (q : query) (c : list doc) : list doc :=
  List.filter (fun d => negb (matches q d)) c.

(** ** [datetime.isoformat] and [datetime.fromisoformat] *)

(** [chr(ord('0') + n)]. *)
Definition digit_char (n : Z) : ascii := ascii_of_nat (48 + Z.to_nat n).

Definition digit_val (c : ascii) : option Z :=
  let n := Z.of_nat (nat_of_ascii c) in
  if (48 <=? n) && (n <=? 57) then Some (n - 48) else None.

(** ['%0wd' % n] for a number of at most [w] digits. *)
Fixpoint zfill (w : nat) (n : Z) : list ascii :=
  match w with
  | O => []
  | S w' => zfill w' (n / 10) ++ [digit_char (n mod 10)]
  end.

(** The number a run of decimal digits denotes. *)
Definition parse_digits (l : list ascii) : option Z :=
  foldl (fun acc c => a ← acc; v ← digit_val c; Some (a * 10 + v)) (Some 0) l.

(** [int(s[0:w])] and the rest [s[w:]]; [None] when fewer than [w]
    characters are left or one of them is not a digit. *)
Definition read_int (w : nat) (s : list ascii) : option (Z * list ascii) :=
  if decide (length (take w s) = w)
  then v ← parse_digits (take w s); Some (v, drop w s)
  else None.

Definition expect (c : ascii) (s : list ascii) : option (list ascii) :=
  match s with
  | c' :: s' => if decide (c' = c) then Some s' else None
  | [] => None
  end.

Definition is_leap (y : Z) : bool :=
  (y mod 4 =? 0) && (negb (y mod 100 =? 0) || (y mod 400 =? 0)).

Definition days_in_month (y m : Z) : Z :=
  if m =? 2 then (if is_leap y then 29 else 28)
  else if (m =? 4) || (m =? 6) || (m =? 9) || (m =? 11) then 30
  else 31.

(** The ranges the [datetime] constructor enforces. *)
Definition valid_datetime (d : datetime) : bool :=
  (1 <=? year d) && (year d <=? 9999) &&
  (1 <=? month d) && (month d <=? 12) &&
  (1 <=? day d) && (day d <=? days_in_month (year d) (month d)) &&
  (0 <=? hour d) && (hour d <? 24) &&
  (0 <=? minute d) && (minute d <? 60) &&
  (0 <=? second d) && (second d <? 60) &&
  (0 <=? microsecond d) && (microsecond d <? 1000000) &&
  match tzinfo d with
  | None => true
  | Some off => (-1440 <? off) && (off <? 1440)
  end.

Definition format_offset (tz : option Z) : list ascii :=
  match tz with
  | None => []
  | Some off =>
      let sign := if off <? 0 then "-"%char else "+"%char in
      let a := Z.abs off in
      sign :: zfill 2 (a / 60) ++ ":"%char :: zfill 2 (a mod 60)
  end.

(** [d.isoformat()]: [YYYY-MM-DDTHH:MM:SS], then [.ffffff] when the
    microseconds are not zero, then the offset of an aware value. *)
Definition isoformat (d : datetime) : string :=
  string_of_list_ascii
    (zfill 4 (year d) ++ "-"%char :: zfill 2 (month d) ++ "-"%char ::
     zfill 2 (day d) ++ "T"%char :: zfill 2 (hour d) ++ ":"%char ::
     zfill 2 (minute d) ++ ":"%char :: zfill 2 (second d) ++
     (if microsecond d =? 0 then [] else "."%char :: zfill 6 (microsecond d)) ++
     format_offset (tzinfo d)).

(** The fraction of a second: [.fff] or [.ffffff], or nothing. *)
Definition parse_fraction (s : list ascii) : option (Z * list ascii) :=
  match s with
  | "."%char :: s' =>
      match read_int 6 s' with
      | Some r => Some r
      | None => '(ms, s'') ← read_int 3 s'; Some (ms * 1000, s'')
      end
  | _ => Some (0, s)
  end.

(** The offset [+HH:MM] or [-HH:MM] up to the end of the string, or nothing
    (a naive value). *)
Definition parse_offset (s : list ascii) : option (option Z) :=
  match s with
  | [] => Some None
  | c :: s1 =>
      sign ← (if decide (c = "+"%char) then Some 1
              else if decide (c = "-"%char) then Some (-1) else None);
      '(hh, s2) ← read_int 2 s1;
      s3 ← expect ":"%char s2;
      '(mm, s4) ← read_int 2 s3;
      match s4 with
      | [] =>
          if (hh <? 24) && (mm <? 60)
          then Some (Some (sign * (hh * 60 + mm)))
          else None
      | _ => None
      end
  end.

(** [datetime.fromisoformat(str)] on the forms [YYYY-MM-DD] and
    [YYYY-MM-DD?HH:MM:SS[.fff[fff]][+HH:MM]] ([?] is any one character);
    [None] is the [ValueError].  Every release of Python that has the
    function reads these forms, and reads them so; a string in another form
    (a time without seconds, say), which some releases read too, is refused
    here.  The strings [isoformat] writes are all of the forms above. *)
Definition fromisoformat (str : string) : option datetime :=
  let s := list_ascii_of_string str in
  '(y, s) ← read_int 4 s;
  s ← expect "-"%char s;
  '(m, s) ← read_int 2 s;
  s ← expect "-"%char s;
  '(d, s) ← read_int 2 s;
  r ← match s with
      | [] => Some (mk_datetime y m d 0 0 0 0 None)
      | _ :: s =>
          '(hh, s) ← read_int 2 s;
          s ← expect ":"%char s;
          '(mi, s) ← read_int 2 s;
          s ← expect ":"%char s;
          '(ss, s) ← read_int 2 s;
          '(us, s) ← parse_fraction s;
          tz ← parse_offset s;
          Some (mk_datetime y m d hh mi ss us tz)
      end;
  if valid_datetime r then Some r else None.

(** ** [uuid.uuid4] and [str] of a UUID *)

(** ['%x' % n] for one hexadecimal digit. *)
Definition hex_char (n : Z) : ascii :=
  if n <? 10 then ascii_of_nat (48 + Z.to_nat n) else ascii_of_nat (87 + Z.to_nat n).

(** ['%0wx' % n] for a number of at most [w] hexadecimal digits. *)
Fixpoint hex (w : nat) (n : Z) : list ascii :=
  match w with
  | O => []
  | S w' => hex w' (n / 16) ++ [hex_char (n mod 16)]
  end.

(** [UUID(bytes=b, version=4).int], where [b] are sixteen bytes read as a
    big-endian number: the variant and version bits are overwritten. *)
Definition UUID_v4 (b : Z) : Z :=
  let i := Z.land b (Z.lnot (Z.shiftl 0xc000 48)) in
  let i := Z.lor i (Z.shiftl 0x8000 48) in
  let i := Z.land i (Z.lnot (Z.shiftl 0xf000 64)) in
  Z.lor i (Z.shiftl 4 76).

(** [str(u)]: the 32 digits in groups of 8, 4, 4, 4 and 12. *)
Definition UUID_str (u : Z) : string :=
  let h := hex 32 u in
  string_of_list_ascii
    (take 8 h ++ "-"%char :: take 4 (drop 8 h) ++ "-"%char ::
     take 4 (drop 12 h) ++ "-"%char :: take 4 (drop 16 h) ++ "-"%char ::
     drop 20 h).

(** [str(uuid.uuid4())] when [os.urandom(16)] returns [b]. *)
Definition uuid4_str (b : Z) : string := UUID_str (UUID_v4 b).

(** ** Exceptions

    What a handler can raise; [Ok] is a normal return. *)

Inductive exn :=
| HTTPException (status_code : Z) (detail : string)
| ValidationError
| ValueError
| AttributeError.

Inductive result (A : Type) :=
| Ok (a : A)
| Raise (e : exn).
Arguments Ok {A} a.
Arguments Raise {A} e.

#[global] Instance result_ret : MRet result := fun A a => Ok a.
#[global] Instance result_bind : MBind result := fun A B f m =>
  match m with
  | Ok a => f a
  | Raise e => Raise e
  end.

#[global] Instance result_fmap : FMap result := fun A B f m =>
  match m with
  | Ok a => Ok (f a)
  | Raise e => Raise e
  end.

(** An [option] whose [None] is the exception [e]. *)
Definition or_raise {A} (e : exn) (o : option A) : result A :=
  match o with
  | Some a => Ok a
  | None => Raise e
  end.

(** ** The schemas

    What pydantic does to one field.  A [str] field takes a string and
    nothing else, a [List[str]] field a list of strings.  The conversions
    into [float], [int] and [datetime] fields (which also read numbers out
    of strings, and more) belong to pydantic; they are an interface, of
    which only this is used: a value that already has the type of the field
    is kept as it is. *)

Class Validators := {
  float_of_value : value -> option spec_float;
  int_of_value : value -> option Z;
  datetime_of_value : value -> option datetime;
  float_of_value_float : forall f, float_of_value (VFloat f) = Some f;
  int_of_value_int : forall z, int_of_value (VInt z) = Some z;
  datetime_of_value_datetime : forall d, datetime_of_value (VDatetime d) = Some d
}.

Definition str_of_value (v : value) : option string :=
  match v with
  | VStr s => Some s
  | _ => None
  end.

Definition list_str_of_value (v : value) : option (list string) :=
  match v with
  | VList l => mapM str_of_value l
  | _ => None
  end.

(** A required field [k] of a model, read from the keyword arguments. *)
Definition required {A} (kw : doc) (k : string) (f : value -> option A) : option A :=
  kw !! k ≫= f.

(** A field [k] with a default: the factory's value when [k] is absent. *)
Definition defaulted {A} (kw : doc) (k : string) (f : value -> option A) (dflt : A) : option A :=
  match kw !! k with
  | Some v => f v
  | None => Some dflt
  end.

Definition VStrs (l : list string) : value := VList (VStr <$> l).

Module DestinationCreate.
Record t := mk {
  name : string;
  region : string;
  description : string;
  image_url : string;
  highlights : list string;
  best_season : string
}.

Definition fields : list string :=
  ["name"; "region"; "description"; "image_url"; "highlights"; "best_season"].

(** The constructor of [DestinationCreate] on the keyword arguments [kw];
    keys that are no field are ignored. *)
Definition init (kw : doc) : option t :=
  name ← required kw "name" str_of_value;
  region ← required kw "region" str_of_value;
  description ← required kw "description" str_of_value;
  image_url ← required kw "image_url" str_of_value;
  highlights ← required kw "highlights" list_str_of_value;
  best_season ← required kw "best_season" str_of_value;
  Some (mk name region description image_url highlights best_season).

Definition model_dump (o : t) : doc :=
  list_to_map [
    ("name", VStr (name o));
    ("region", VStr (region o));
    ("description", VStr (description o));
    ("image_url", VStr (image_url o));
    ("highlights", VStrs (highlights o));
    ("best_season", VStr (best_season o))].
End DestinationCreate.

Module Destination.
Record t := mk {
  id : string;
  name : string;
  region : string;
  description : string;
  image_url : string;
  highlights : list string;
  best_season : string
}.

Definition fields : list string :=
  ["id"; "name"; "region"; "description"; "image_url"; "highlights"; "best_season"].

(** The constructor of [Destination] on the keyword arguments [kw], with
    [extra="ignore"]; [b] are the bytes the default factory of [id] draws. *)
Definition init (b : Z) (kw : doc) : option t :=
  id ← defaulted kw "id" str_of_value (uuid4_str b);
  name ← required kw "name" str_of_value;
  region ← required kw "region" str_of_value;
  description ← required kw "description" str_of_value;
  image_url ← required kw "image_url" str_of_value;
  highlights ← required kw "highlights" list_str_of_value;
  best_season ← required kw "best_season" str_of_value;
  Some (mk id name region description image_url highlights best_season).

Definition model_dump (o : t) : doc :=
  list_to_map [
    ("id", VStr (id o));
    ("name", VStr (name o));
    ("region", VStr (region o));
    ("description", VStr (description o));
    ("image_url", VStr (image_url o));
    ("highlights", VStrs (highlights o));
    ("best_season", VStr (best_season o))].
End Destination.

Module TripPackageCreate.
Record t := mk {
  destination_id : string;
  destination_name : string;
  title : string;
  duration : string;
  price_veg : spec_float;
  price_non_veg : spec_float;
  pickup_time : string;
  itinerary : list string;
  inclusions : list string;
  exclusions : list string;
  image_url : string
}.

Definition fields : list string :=
  ["destination_id"; "destination_name"; "title"; "duration"; "price_veg";
   "price_non_veg"; "pickup_time"; "itinerary"; "inclusions"; "exclusions";
   "image_url"].

(** The constructor of [TripPackageCreate] on the keyword arguments [kw];
    keys that are no field are ignored. *)
Definition init `{Validators} (kw : doc) : option t :=
  destination_id ← required kw "destination_id" str_of_value;
  destination_name ← required kw "destination_name" str_of_value;
  title ← required kw "title" str_of_value;
  duration ← required kw "duration" str_of_value;
  price_veg ← required kw "price_veg" float_of_value;
  price_non_veg ← required kw "price_non_veg" float_of_value;
  pickup_time ← required kw "pickup_time" str_of_value;
  itinerary ← required kw "itinerary" list_str_of_value;
  inclusions ← required kw "inclusions" list_str_of_value;
  exclusions ← required kw "exclusions" list_str_of_value;
  image_url ← required kw "image_url" str_of_value;
  Some (mk destination_id destination_name title duration price_veg
           price_non_veg pickup_time itinerary inclusions exclusions image_url).

Definition model_dump (o : t) : doc :=
  list_to_map [
    ("destination_id", VStr (destination_id o));
    ("destination_name", VStr (destination_name o));
    ("title", VStr (title o));
    ("duration", VStr (duration o));
    ("price_veg", VFloat (price_veg o));
    ("price_non_veg", VFloat (price_non_veg o));
    ("pickup_time", VStr (pickup_time o));
    ("itinerary", VStrs (itinerary o));
    ("inclusions", VStrs (inclusions o));
    ("exclusions", VStrs (exclusions o));
    ("image_url", VStr (image_url o))].
End TripPackageCreate.

Module TripPackage.
Record t := mk {
  id : string;
  destination_id : string;
  destination_name : string;
  title : string;
  duration : string;
  price_veg : spec_float;
  price_non_veg : spec_float;
  pickup_time : string;
  itinerary : list string;
  inclusions : list string;
  exclusions : list string;
  image_url : string
}.

Definition fields : list string :=
  ["id"; "destination_id"; "destination_name"; "title"; "duration";
   "price_veg"; "price_non_veg"; "pickup_time"; "itinerary"; "inclusions";
   "exclusions"; "image_url"].

(** The constructor of [TripPackage] on the keyword arguments [kw], with
    [extra="ignore"]; [b] are the bytes the default factory of [id] draws. *)
Definition init `{Validators} (b : Z) (kw : doc) : option t :=
  id ← defaulted kw "id" str_of_value (uuid4_str b);
  destination_id ← required kw "destination_id" str_of_value;
  destination_name ← required kw "destination_name" str_of_value;
  title ← required kw "title" str_of_value;
  duration ← required kw "duration" str_of_value;
  price_veg ← required kw "price_veg" float_of_value;
  price_non_veg ← required kw "price_non_veg" float_of_value;
  pickup_time ← required kw "pickup_time" str_of_value;
  itinerary ← required kw "itinerary" list_str_of_value;
  inclusions ← required kw "inclusions" list_str_of_value;
  exclusions ← required kw "exclusions" list_str_of_value;
  image_url ← required kw "image_url" str_of_value;
  Some (mk id destination_id destination_name title duration price_veg
           price_non_veg pickup_time itinerary inclusions exclusions image_url).

Definition model_dump (o : t) : doc :=
  list_to_map [
    ("id", VStr (id o));
    ("destination_id", VStr (destination_id o));
    ("destination_name", VStr (destination_name o));
    ("title", VStr (title o));
    ("duration", VStr (duration o));
    ("price_veg", VFloat (price_veg o));
    ("price_non_veg", VFloat (price_non_veg o));
    ("pickup_time", VStr (pickup_time o));
    ("itinerary", VStrs (itinerary o));
    ("inclusions", VStrs (inclusions o));
    ("exclusions", VStrs (exclusions o));
    ("image_url", VStr (image_url o))].
End TripPackage.

Module BookingCreate.
Record t := mk {
  trip_id : string;
  trip_title : string;
  customer_name : string;
  customer_email : string;
  customer_phone : string;
  travel_date : string;
  guests : Z;
  meal_preference : string;
  total_amount : spec_float
}.

Definition fields : list string :=
  ["trip_id"; "trip_title"; "customer_name"; "customer_email";
   "customer_phone"; "travel_date"; "guests"; "meal_preference";
   "total_amount"].

(** The constructor of [BookingCreate] on the keyword arguments [kw];
    keys that are no field are ignored. *)
Definition init `{Validators} (kw : doc) : option t :=
  trip_id ← required kw "trip_id" str_of_value;
  trip_title ← required kw "trip_title" str_of_value;
  customer_name ← required kw "customer_name" str_of_value;
  customer_email ← required kw "customer_email" str_of_value;
  customer_phone ← required kw "customer_phone" str_of_value;
  travel_date ← required kw "travel_date" str_of_value;
  guests ← required kw "guests" int_of_value;
  meal_preference ← required kw "meal_preference" str_of_value;
  total_amount ← required kw "total_amount" float_of_value;
  Some (mk trip_id trip_title customer_name customer_email customer_phone
           travel_date guests meal_preference total_amount).

Definition model_dump (o : t) : doc :=
  list_to_map [
    ("trip_id", VStr (trip_id o));
    ("trip_title", VStr (trip_title o));
    ("customer_name", VStr (customer_name o));
    ("customer_email", VStr (customer_email o));
    ("customer_phone", VStr (customer_phone o));
    ("travel_date", VStr (travel_date o));
    ("guests", VInt (guests o));
    ("meal_preference", VStr (meal_preference o));
    ("total_amount", VFloat (total_amount o))].
End BookingCreate.

(** [datetime.now(timezone.utc)] when the clock reads [clock] in UTC. *)
Definition now_utc (clock : datetime) : datetime :=
  mk_datetime (year clock) (month clock) (day clock) (hour clock)
    (minute clock) (second clock) (microsecond clock) (Some 0).

Module Booking.
Record t := mk {
  id : string;
  trip_id : string;
  trip_title : string;
  customer_name : string;
  customer_email : string;
  customer_phone : string;
  travel_date : string;
  guests : Z;
  meal_preference : string;
  total_amount : spec_float;
  booking_date : datetime;
  status : string
}.

Definition fields : list string :=
  ["id"; "trip_id"; "trip_title"; "customer_name"; "customer_email";
   "customer_phone"; "travel_date"; "guests"; "meal_preference";
   "total_amount"; "booking_date"; "status"].

(** The constructor of [Booking] on the keyword arguments [kw], with
    [extra="ignore"]; [b] and [clock] are what the default factories of [id]
    and [booking_date] read. *)
Definition init `{Validators} (b : Z) (clock : datetime) (kw : doc) : option t :=
  id ← defaulted kw "id" str_of_value (uuid4_str b);
  trip_id ← required kw "trip_id" str_of_value;
  trip_title ← required kw "trip_title" str_of_value;
  customer_name ← required kw "customer_name" str_of_value;
  customer_email ← required kw "customer_email" str_of_value;
  customer_phone ← required kw "customer_phone" str_of_value;
  travel_date ← required kw "travel_date" str_of_value;
  guests ← required kw "guests" int_of_value;
  meal_preference ← required kw "meal_preference" str_of_value;
  total_amount ← required kw "total_amount" float_of_value;
  booking_date ← defaulted kw "booking_date" datetime_of_value (now_utc clock);
  status ← defaulted kw "status" str_of_value "confirmed";
  Some (mk id trip_id trip_title customer_name customer_email customer_phone
           travel_date guests meal_preference total_amount booking_date status).

Definition model_dump (o : t) : doc :=
  list_to_map [
    ("id", VStr (id o));
    ("trip_id", VStr (trip_id o));
    ("trip_title", VStr (trip_title o));
    ("customer_name", VStr (customer_name o));
    ("customer_email", VStr (customer_email o));
    ("customer_phone", VStr (customer_phone o));
    ("travel_date", VStr (travel_date o));
    ("guests", VInt (guests o));
    ("meal_preference", VStr (meal_preference o));
    ("total_amount", VFloat (total_amount o));
    ("booking_date", VDatetime (booking_date o));
    ("status", VStr (status o))].
End Booking.

(** ** The handlers

    Each is the function of [server.py] of the same name, on the store it
    reads or changes.  What it returns is the value the Python function
    returns; turning that into the HTTP response is FastAPI's work. *)

(** A Python [dict] is false when it is empty. *)
Definition dict_truthy (d : doc) : bool := negb (bool_decide (size d = 0%nat)).

(** A Python [str] is false when it is empty. *)
Definition str_truthy (s : string) : bool := negb (bool_decide (s = "")).

Definition get_destinations (db : database) : list doc :=
  let destinations := to_list 1000 (find [] ["_id"] (destinations db)) in
  destinations.

Definition create_destination (input : DestinationCreate.t) (b : Z) (db : database)
  : result (database * Destination.t) :=
  let dest_dict := DestinationCreate.model_dump input in
  dest_obj ← or_raise ValidationError (Destination.init b dest_dict);
  let doc := Destination.model_dump dest_obj in
  let '(c, n) := insert_one doc (destinations db) (next_oid db) in
  Ok (mk_database c (trips db) (bookings db) n, dest_obj).

Definition get_trips (destination_id : option string) (db : database) : list doc :=
  let query :=
    match destination_id with
    | Some x => if str_truthy x then [("destination_id", x)] else []
    | None => []
    end in
  let trips := to_list 1000 (find query ["_id"] (trips db)) in
  trips.

Definition get_trip (trip_id : string) (db : database) : result doc :=
  let trip := find_one [("id", trip_id)] ["_id"] (trips db) in
  match trip with
  | Some t =>
      if dict_truthy t then Ok t
      else Raise (HTTPException 404 "Trip not found")
  | None => Raise (HTTPException 404 "Trip not found")
  end.

Definition create_trip `{Validators} (input : TripPackageCreate.t) (b : Z) (db : database)
  : result (database * TripPackage.t) :=
  let trip_dict := TripPackageCreate.model_dump input in
  trip_obj ← or_raise ValidationError (TripPackage.init b trip_dict);
  let doc := TripPackage.model_dump trip_obj in
  let '(c, n) := insert_one doc (trips db) (next_oid db) in
  Ok (mk_database (destinations db) c (bookings db) n, trip_obj).

(** The body of the loop of [get_bookings]. *)
Definition parse_booking_date (booking : doc) : result doc :=
  match booking !! "booking_date" with
  | Some (VStr s) =>
      d ← or_raise ValueError (fromisoformat s);
      Ok (<["booking_date" := VDatetime d]> booking)
  | _ => Ok booking
  end.

Fixpoint for_each (body : doc -> result doc) (l : list doc) : result (list doc) :=
  match l with
  | [] => Ok []
  | d :: l' => d' ← body d; l'' ← for_each body l'; Ok (d' :: l'')
  end.

Definition get_bookings (db : database) : result (list doc) :=
  let bookings := to_list 1000 (find [] ["_id"] (bookings db)) in
  for_each parse_booking_date bookings.

Definition create_booking `{Validators} (input : BookingCreate.t) (b : Z) (clock : datetime)
    (db : database) : result (database * Booking.t) :=
  let booking_dict := BookingCreate.model_dump input in
  booking_obj ← or_raise ValidationError (Booking.init b clock booking_dict);
  let doc := Booking.model_dump booking_obj in
  doc ← match doc !! "booking_date" with
        | Some (VDatetime d) => Ok (<["booking_date" := VStr (isoformat d)]> doc)
        | _ => Raise AttributeError
        end;
  let '(c, n) := insert_one doc (bookings db) (next_oid db) in
  Ok (mk_database (destinations db) (trips db) c n, booking_obj).

Definition destinations_data : list doc := [
  list_to_map [
    ("id", VStr "dest-1");
    ("name", VStr "Gangtok");
    ("region", VStr "Sikkim");
    ("description", VStr "The capital of Sikkim, nestled in the Himalayas with stunning mountain views and rich Buddhist culture.");
    ("image_url", VStr "https://images.unsplash.com/photo-1761820228515-b79043c31856?crop=entropy&cs=srgb&fm=jpg&ixid=M3w3NDQ2NDN8MHwxfHNlYXJjaHwxfHxIaW1hbGF5YW4lMjBtb3VudGFpbiUyMHZpc3RhfGVufDB8fHx8MTc2MjEwNDgwNXww&ixlib=rb-4.1.0&q=85");
    ("highlights", VList [VStr "Tsomgo Lake";
        VStr "Nathula Pass";
        VStr "Rumtek Monastery";
        VStr "MG Marg"]);
    ("best_season", VStr "March to June, September to December")];
  list_to_map [
    ("id", VStr "dest-2");
    ("name", VStr "Darjeeling");
    ("region", VStr "West Bengal");
    ("description", VStr "Famous for its tea gardens, toy train, and breathtaking views of Kanchenjunga.");
    ("image_url", VStr "https://images.unsplash.com/photo-1742286087572-937f08b947b8?crop=entropy&cs=srgb&fm=jpg&ixid=M3w3NDQ2Mzl8MHwxfHNlYXJjaHwxfHx0ZWElMjBnYXJkZW4lMjBsYW5kc2NhcGV8ZW58MHx8fHwxNzYyMTA0ODA1fDA&ixlib=rb-4.1.0&q=85");
    ("highlights", VList [VStr "Tiger Hill";
        VStr "Darjeeling Himalayan Railway";
        VStr "Tea Gardens";
        VStr "Batasia Loop"]);
    ("best_season", VStr "April to June, September to November")];
  list_to_map [
    ("id", VStr "dest-3");
    ("name", VStr "Tawang");
    ("region", VStr "Arunachal Pradesh");
    ("description", VStr "Home to India's largest monastery and spectacular mountain landscapes.");
    ("image_url", VStr "https://images.unsplash.com/photo-1633538028057-838fd4e027a4?crop=entropy&cs=srgb&fm=jpg&ixid=M3w3NTY2NjZ8MHwxfHNlYXJjaHwxfHxCdWRkaGlzdCUyMG1vbmFzdGVyeXxlbnwwfHx8fDE3NjIxMDQ4MDZ8MA&ixlib=rb-4.1.0&q=85");
    ("highlights", VList [VStr "Tawang Monastery";
        VStr "Sela Pass";
        VStr "Madhuri Lake";
        VStr "Bumla Pass"]);
    ("best_season", VStr "March to October")];
  list_to_map [
    ("id", VStr "dest-4");
    ("name", VStr "Shillong");
    ("region", VStr "Meghalaya");
    ("description", VStr "The 'Scotland of the East' with rolling hills, waterfalls, and pleasant weather.");
    ("image_url", VStr "https://images.unsplash.com/photo-1752063497357-4a9e0b765771?crop=entropy&cs=srgb&fm=jpg&ixid=M3w3NDQ2NDN8MHwxfHNlYXJjaHwyfHxIaW1hbGF5YW4lMjBtb3VudGFpbiUyMHZpc3RhfGVufDB8fHx8MTc2MjEwNDgwNXww&ixlib=rb-4.1.0&q=85");
    ("highlights", VList [VStr "Elephant Falls";
        VStr "Shillong Peak";
        VStr "Ward's Lake";
        VStr "Don Bosco Museum"]);
    ("best_season", VStr "October to May")]
].

Definition trips_data : list doc := [
  list_to_map [
    ("id", VStr "trip-1");
    ("destination_id", VStr "dest-1");
    ("destination_name", VStr "Gangtok");
    ("title", VStr "Gangtok Paradise - 5 Days");
    ("duration", VStr "5 Days / 4 Nights");
    ("price_veg", VInt 18500);
    ("price_non_veg", VInt 21000);
    ("pickup_time", VStr "8:00 AM from Bagdogra Airport/NJP Station");
    ("itinerary", VList [VStr "Day 1: Arrival in Gangtok, check-in, MG Marg evening walk";
        VStr "Day 2: Tsomgo Lake & Baba Mandir excursion";
        VStr "Day 3: Nathula Pass visit (subject to permit)";
        VStr "Day 4: Rumtek Monastery, Hanuman Tok, Tashi View Point";
        VStr "Day 5: Departure to Bagdogra/NJP"]);
    ("inclusions", VList [VStr "Accommodation";
        VStr "Daily breakfast, lunch & dinner";
        VStr "All transfers";
        VStr "Sightseeing as per itinerary";
        VStr "Permit fees"]);
    ("exclusions", VList [VStr "Personal expenses";
        VStr "Travel insurance";
        VStr "Any meals not mentioned"]);
    ("image_url", VStr "https://images.unsplash.com/photo-1761820228515-b79043c31856?crop=entropy&cs=srgb&fm=jpg&ixid=M3w3NDQ2NDN8MHwxfHNlYXJjaHwxfHxIaW1hbGF5YW4lMjBtb3VudGFpbiUyMHZpc3RhfGVufDB8fHx8MTc2MjEwNDgwNXww&ixlib=rb-4.1.0&q=85")];
  list_to_map [
    ("id", VStr "trip-2");
    ("destination_id", VStr "dest-2");
    ("destination_name", VStr "Darjeeling");
    ("title", VStr "Darjeeling Delight - 4 Days");
    ("duration", VStr "4 Days / 3 Nights");
    ("price_veg", VInt 14500);
    ("price_non_veg", VInt 16500);
    ("pickup_time", VStr "7:00 AM from Bagdogra Airport/NJP Station");
    ("itinerary", VList [VStr "Day 1: Arrival in Darjeeling, check-in, Mall Road exploration";
        VStr "Day 2: Tiger Hill sunrise, Ghoom Monastery, Batasia Loop, toy train ride";
        VStr "Day 3: Tea garden visit, Happy Valley, Himalayan Mountaineering Institute";
        VStr "Day 4: Departure to Bagdogra/NJP"]);
    ("inclusions", VList [VStr "Accommodation";
        VStr "Daily breakfast, lunch & dinner";
        VStr "All transfers";
        VStr "Sightseeing";
        VStr "Toy train tickets"]);
    ("exclusions", VList [VStr "Personal expenses";
        VStr "Camera fees";
        VStr "Tips"]);
    ("image_url", VStr "https://images.unsplash.com/photo-1742286087572-937f08b947b8?crop=entropy&cs=srgb&fm=jpg&ixid=M3w3NDQ2Mzl8MHwxfHNlYXJjaHwxfHx0ZWElMjBnYXJkZW4lMjBsYW5kc2NhcGV8ZW58MHx8fHwxNzYyMTA0ODA1fDA&ixlib=rb-4.1.0&q=85")];
  list_to_map [
    ("id", VStr "trip-3");
    ("destination_id", VStr "dest-3");
    ("destination_name", VStr "Tawang");
    ("title", VStr "Tawang Tranquility - 6 Days");
    ("duration", VStr "6 Days / 5 Nights");
    ("price_veg", VInt 25500);
    ("price_non_veg", VInt 28500);
    ("pickup_time", VStr "6:00 AM from Guwahati Airport/Station");
    ("itinerary", VList [VStr "Day 1: Guwahati to Bomdila (overnight journey)";
        VStr "Day 2: Bomdila to Tawang via Sela Pass";
        VStr "Day 3: Tawang Monastery, War Memorial, local market";
        VStr "Day 4: Bumla Pass & Madhuri Lake excursion";
        VStr "Day 5: Tawang to Bomdila";
        VStr "Day 6: Bomdila to Guwahati, departure"]);
    ("inclusions", VList [VStr "Accommodation";
        VStr "All meals";
        VStr "Permits & entry fees";
        VStr "Transfers";
        VStr "Guide services"]);
    ("exclusions", VList [VStr "Personal expenses";
        VStr "Travel insurance";
        VStr "Medical expenses";
        VStr "Laundry"]);
    ("image_url", VStr "https://images.unsplash.com/photo-1633538028057-838fd4e027a4?crop=entropy&cs=srgb&fm=jpg&ixid=M3w3NTY2NjZ8MHwxfHNlYXJjaHwxfHxCdWRkaGlzdCUyMG1vbmFzdGVyeXxlbnwwfHx8fDE3NjIxMDQ4MDZ8MA&ixlib=rb-4.1.0&q=85")];
  list_to_map [
    ("id", VStr "trip-4");
    ("destination_id", VStr "dest-4");
    ("destination_name", VStr "Shillong");
    ("title", VStr "Shillong Explorer - 4 Days");
    ("duration", VStr "4 Days / 3 Nights");
    ("price_veg", VInt 15400);
    ("price_non_veg", VInt 17400);
    ("pickup_time", VStr "9:00 AM from Guwahati Airport/Station");
    ("itinerary", VList [VStr "Day 1: Guwahati to Shillong, Umiam Lake visit";
        VStr "Day 2: Cherrapunji day trip - Nohkalikai Falls, Seven Sisters Falls, Mawsmai Cave";
        VStr "Day 3: Elephant Falls, Shillong Peak, Ward's Lake, Police Bazaar";
        VStr "Day 4: Departure to Guwahati"]);
    ("inclusions", VList [VStr "Accommodation";
        VStr "Breakfast, lunch & dinner";
        VStr "Transfers";
        VStr "Sightseeing";
        VStr "Entry tickets"]);
    ("exclusions", VList [VStr "Personal expenses";
        VStr "Camera fees";
        VStr "Adventure activities"]);
    ("image_url", VStr "https://images.unsplash.com/photo-1752063497357-4a9e0b765771?crop=entropy&cs=srgb&fm=jpg&ixid=M3w3NDQ2NDN8MHwxfHNlYXJjaHwyfHxIaW1hbGF5YW4lMjBtb3VudGFpbiUyMHZpc3RhfGVufDB8fHx8MTc2MjEwNDgwNXww&ixlib=rb-4.1.0&q=85")]
].

Definition seed_data (db : database) : database * doc :=
  let dests := delete_many [] (destinations db) in
  let trps := delete_many [] (trips db) in
  let '(dests, n) := insert_many destinations_data dests (next_oid db) in
  let '(trps, n) := insert_many trips_data trps n in
  (mk_database dests trps (bookings db) n,
   list_to_map [
     ("message", VStr "Database seeded successfully");
     ("destinations", VInt (Z.of_nat (length destinations_data)));
     ("trips", VInt (Z.of_nat (length trips_data)))]).

Definition root : doc :=
  {[ "message" := VStr "Northeast India & Sikkim Travel API" ]}.

(** ** The routes

    A request is a route with its body or parameters; the router validates
    the body against the schema of the route and calls the handler.  A body
    the schema refuses never reaches the handler. *)

Inductive request :=
| GET_root
| GET_destinations
| POST_destinations (body : doc)
| GET_trips (destination_id : option string)
| GET_trip (trip_id : string)
| POST_trips (body : doc)
| GET_bookings
| POST_bookings (body : doc)
| POST_seed.

Inductive returned :=
| RDoc (d : doc)
| RDocs (l : list doc)
| RDestination (o : Destination.t)
| RTripPackage (o : TripPackage.t)
| RBooking (o : Booking.t).

(** The store after a handler that returned [a] or raised. *)
Definition commit {A} (db : database) (wrap : A -> returned)
    (r : result (database * A)) : database * result returned :=
  match r with
  | Ok (db', a) => (db', Ok (wrap a))
  | Raise e => (db, Raise e)
  end.

Definition serve `{Validators} (req : request) (b : Z) (clock : datetime) (db : database)
  : database * result returned :=
  match req with
  | GET_root => (db, Ok (RDoc root))
  | GET_destinations => (db, Ok (RDocs (get_destinations db)))
  | POST_destinations body =>
      commit db RDestination
        (input ← or_raise ValidationError (DestinationCreate.init body);
         create_destination input b db)
  | GET_trips destination_id => (db, Ok (RDocs (get_trips destination_id db)))
  | GET_trip trip_id => (db, RDoc <$> get_trip trip_id db)
  | POST_trips body =>
      commit db RTripPackage
        (input ← or_raise ValidationError (TripPackageCreate.init body);
         create_trip input b db)
  | GET_bookings => (db, RDocs <$> get_bookings db)
  | POST_bookings body =>
      commit db RBooking
        (input ← or_raise ValidationError (BookingCreate.init body);
         create_booking input b clock db)
  | POST_seed => let '(db', summary) := seed_data db in (db', Ok (RDoc summary))
  end.

(** ** Notions the properties are stated with *)

(** The store holds the seeded records and no other destination or trip:
    four of each, which are the fixed records once the store's own [_id] is
    left out. *)
Definition seeded (db : database) : Prop :=
  delete "_id" <$> destinations db = destinations_data /\
  delete "_id" <$> trips db = trips_data /\
  length (destinations db) = 4%nat /\
  length (trips db) = 4%nat.

(** The stored trips whose [destination_id] is [x], in the order of the
    store. *)
Definition trips_of_destination (x : string) (db : database) : list doc :=
  List.filter (fun t => field_is t "destination_id" x) (trips db).

(** Every timestamp the store holds as a string can be read. *)
Definition readable (d : doc) : Prop :=
  forall s, d !! "booking_date" = Some (VStr s) -> is_Some (fromisoformat s).

Definition bookings_readable (db : database) : Prop :=
  Forall readable (bookings db).

(** The record [create_destination] builds when the factory of [id] draws
    the bytes [b]. *)
Definition new_destination (input : DestinationCreate.t) (b : Z) : Destination.t :=
  Destination.mk (uuid4_str b)
    (DestinationCreate.name input) (DestinationCreate.region input)
    (DestinationCreate.description input) (DestinationCreate.image_url input)
    (DestinationCreate.highlights input) (DestinationCreate.best_season input).

(** The record [create_trip] builds. *)
Definition new_trip (input : TripPackageCreate.t) (b : Z) : TripPackage.t :=
  TripPackage.mk (uuid4_str b)
    (TripPackageCreate.destination_id input) (TripPackageCreate.destination_name input)
    (TripPackageCreate.title input) (TripPackageCreate.duration input)
    (TripPackageCreate.price_veg input) (TripPackageCreate.price_non_veg input)
    (TripPackageCreate.pickup_time input) (TripPackageCreate.itinerary input)
    (TripPackageCreate.inclusions input) (TripPackageCreate.exclusions input)
    (TripPackageCreate.image_url input).

(** The record [create_booking] builds when the clock reads [clock]. *)
Definition new_booking (input : BookingCreate.t) (b : Z) (clock : datetime) : Booking.t :=
  Booking.mk (uuid4_str b)
    (BookingCreate.trip_id input) (BookingCreate.trip_title input)
    (BookingCreate.customer_name input) (BookingCreate.customer_email input)
    (BookingCreate.customer_phone input) (BookingCreate.travel_date input)
    (BookingCreate.guests input) (BookingCreate.meal_preference input)
    (BookingCreate.total_amount input) (now_utc clock) "confirmed".

(** The document [create_booking] stores for it, before the store adds
    the [_id]. *)
Definition booking_doc (o : Booking.t) : doc :=
  <["booking_date" := VStr (isoformat (Booking.booking_date o))]> (Booking.model_dump o).

(** The value of a hexadecimal digit. *)
Definition hex_val (c : ascii) : Z :=
  let n := Z.of_nat (nat_of_ascii c) in
  if n <? 58 then n - 48 else n - 87.

(** The groups [str] cuts the 32 digits into, with the hyphens between. *)
Definition grouped (h : list ascii) : list ascii :=
  take 8 h ++ "-"%char :: take 4 (drop 8 h) ++ "-"%char ::
  take 4 (drop 12 h) ++ "-"%char :: take 4 (drop 16 h) ++ "-"%char :: drop 20 h.

(** The store after a run of requests, each with the bytes and the clock
    reading its handler gets. *)
Fixpoint run `{Validators} (reqs : list (request * Z * datetime)) (db : database)
  : database :=
  match reqs with
  | [] => db
  | (req, b, clock) :: reqs' => run reqs' (serve req b clock db).1
  end.

(** ** Sample data

    The conversions of pydantic on the values of JSON that already have the
    type of the field, an empty store, and a few bodies of requests. *)

Definition json_validators : Validators := {|
  float_of_value := fun v => match v with VFloat f => Some f | _ => None end;
  int_of_value := fun v => match v with VInt z => Some z | _ => None end;
  datetime_of_value := fun v => match v with VDatetime d => Some d | _ => None end;
  float_of_value_float := fun f => eq_refl;
  int_of_value_int := fun z => eq_refl;
  datetime_of_value_datetime := fun d => eq_refl
|}.

Definition empty_db : database := mk_database [] [] [] 0.

Definition kohima : DestinationCreate.t :=
  DestinationCreate.mk "Kohima" "Nagaland" "d" "http://x" ["A"] "Oct".

Definition a_trip_body : doc :=
  list_to_map [
    ("destination_id", VStr "dest-9");
    ("destination_name", VStr "Kohima");
    ("title", VStr "Kohima - 3 Days");
    ("duration", VStr "3 Days / 2 Nights");
    ("price_veg", VFloat (S754_finite false 4947802324992000 (-39)));
    ("price_non_veg", VFloat (S754_finite false 5222680231936000 (-39)));
    ("pickup_time", VStr "8:00 AM");
    ("itinerary", VList [VStr "Day 1"; VStr "Day 2"; VStr "Day 3"]);
    ("inclusions", VList [VStr "Accommodation"]);
    ("exclusions", VList []);
    ("image_url", VStr "http://x")].

Definition a_trip : TripPackageCreate.t :=
  TripPackageCreate.mk "dest-9" "Kohima" "Kohima - 3 Days" "3 Days / 2 Nights"
    (S754_finite false 4947802324992000 (-39)) (S754_finite false 5222680231936000 (-39)) "8:00 AM"
    ["Day 1"; "Day 2"; "Day 3"] ["Accommodation"] [] "http://x".

Definition a_booking_body : doc :=
  list_to_map [
    ("trip_id", VStr "trip-1");
    ("trip_title", VStr "Gangtok Paradise - 5 Days");
    ("customer_name", VStr "A");
    ("customer_email", VStr "a@x");
    ("customer_phone", VStr "1");
    ("travel_date", VStr "2026-01-10");
    ("guests", VInt 2);
    ("meal_preference", VStr "veg");
    ("total_amount", VFloat (S754_finite false 5085241278464000 (-37)));
    ("status", VStr "cancelled");
    ("booking_date", VStr "1999-01-01T00:00:00")].

Definition a_booking : BookingCreate.t :=
  BookingCreate.mk "trip-1" "Gangtok Paradise - 5 Days" "A" "a@x" "1" "2026-01-10" 2
    "veg" (S754_finite false 5085241278464000 (-37)).

Definition a_clock : datetime := mk_datetime 2026 1 2 3 4 5 678 None.

(** A booking whose timestamp cannot be read, a store that holds it, a
    store at the cap of the listings, and a run of requests. *)
Definition a_bad_booking : doc := {[ "booking_date" := VStr "yesterday" ]}.

Definition a_bad_store : database := mk_database [] [] [a_bad_booking] 0.

Definition a_full_store : database := mk_database [] [] (replicate 1000 ∅) 0.

Definition a_run : list (request * Z * datetime) :=
  [(POST_seed, 0, a_clock);
   (POST_bookings a_booking_body, 7, a_clock);
   (POST_trips a_trip_body, 8, a_clock)].

(** * Properties *)

(** ** The store *)

Lemma matches_nil (d : doc) : matches [] d = true.
Proof. reflexivity. Qed.

Lemma filter_matches_nil (c : list doc) : List.filter (matches []) c = c.
Proof. induction c as [|d c IH]; simpl; [done | by rewrite IH]. Qed.

Lemma project_id (d : doc) : project ["_id"] d = delete "_id" d.
Proof. reflexivity. Qed.

Lemma find_all (c : list doc) : find [] ["_id"] c = delete "_id" <$> c.
Proof. unfold find. by rewrite filter_matches_nil. Qed.

Lemma delete_many_all (c : list doc) : delete_many [] c = [].
Proof. induction c as [|d c IH]; simpl; done. Qed.

Lemma to_list_length (n : nat) (c : list doc) : (length (to_list n c) <= n)%nat.
Proof. unfold to_list. rewrite length_take. lia. Qed.

Lemma with_oid_fresh (n : nat) (d : doc) :
  d !! "_id" = None -> with_oid n d = <["_id" := VOid n]> d.
Proof. intros H. unfold with_oid. by rewrite H. Qed.

Lemma delete_with_oid (n : nat) (d : doc) :
  d !! "_id" = None -> delete "_id" (with_oid n d) = d.
Proof. intros H. rewrite with_oid_fresh by done. by apply delete_insert_id. Qed.

Lemma with_oid_has_id (n : nat) (d : doc) : is_Some (with_oid n d !! "_id").
Proof.
  unfold with_oid. destruct (d !! "_id") eqn:E.
  - rewrite E. eauto.
  - rewrite lookup_insert_eq. eauto.
Qed.

Lemma with_oid_lookup_ne (n : nat) (d : doc) (k : string) :
  k <> "_id" -> with_oid n d !! k = d !! k.
Proof.
  intros H. unfold with_oid. destruct (d !! "_id"); [done|].
  by rewrite lookup_insert_ne.
Qed.

(** [insert_many] appends the documents in order, each with the next
    [ObjectId]. *)
Lemma insert_many_spec (ds c : list doc) (n : nat) :
  insert_many ds c n = (c ++ imap (fun i d => with_oid (n + i) d) ds, (n + length ds)%nat).
Proof.
  revert c n. induction ds as [|d ds IH]; intros c n; simpl.
  - by rewrite app_nil_r, Nat.add_0_r.
  - rewrite IH, <- app_assoc. simpl. rewrite Nat.add_0_r. f_equal.
    + do 2 f_equal. apply imap_ext. intros i x _. simpl. f_equal. lia.
    + lia.
Qed.

Lemma strip_imap_with_oid (ds : list doc) (n : nat) :
  Forall (fun d => d !! "_id" = None) ds ->
  delete "_id" <$> imap (fun i d => with_oid (n + i) d) ds = ds.
Proof.
  revert n. induction ds as [|d ds IH]; intros n Hds; [done|].
  inversion_clear Hds as [|? ? Hd Hds']. simpl. f_equal.
  - by apply delete_with_oid.
  - rewrite <- (IH (S n) Hds') at 2. f_equal. apply imap_ext.
    intros i x _. simpl. f_equal. lia.
Qed.

Lemma listed_snoc (c : list doc) (d : doc) :
  (length c < 1000)%nat ->
  to_list 1000 (find [] ["_id"] (c ++ [d])) =
  to_list 1000 (find [] ["_id"] c) ++ [delete "_id" d].
Proof.
  intros Hlen. unfold to_list. rewrite !find_all, fmap_app.
  rewrite !take_ge; [done|rewrite length_fmap; lia|].
  rewrite length_app, length_fmap. simpl. lia.
Qed.

(** ** The seed *)

Lemma destinations_data_no_oid : Forall (fun d : doc => d !! "_id" = None) destinations_data.
Proof. repeat constructor. Qed.

Lemma trips_data_no_oid : Forall (fun d : doc => d !! "_id" = None) trips_data.
Proof. repeat constructor. Qed.

Lemma seed_data_destinations (db : database) :
  destinations (seed_data db).1 =
    imap (fun i d => with_oid (next_oid db + i) d) destinations_data.
Proof.
  unfold seed_data. rewrite !delete_many_all, !insert_many_spec. reflexivity.
Qed.

Lemma seed_data_trips (db : database) :
  trips (seed_data db).1 =
    imap (fun i d => with_oid (next_oid db + length destinations_data + i) d) trips_data.
Proof.
  unfold seed_data. rewrite !delete_many_all, !insert_many_spec. reflexivity.
Qed.

Lemma seed_data_summary (db : database) :
  (seed_data db).2 =
    list_to_map [("message", VStr "Database seeded successfully");
                 ("destinations", VInt 4); ("trips", VInt 4)].
Proof.
  unfold seed_data. rewrite !delete_many_all, !insert_many_spec. reflexivity.
Qed.

(** A reading [f] of a document that does not look at [_id] sees the
    documents [insert_many] stored as they were given. *)
Lemma fmap_imap_with_oid {A} (f : doc -> A) (ds : list doc) (n : nat) :
  Forall (fun d => forall m, f (with_oid m d) = f d) ds ->
  f <$> imap (fun i d => with_oid (n + i) d) ds = f <$> ds.
Proof.
  revert n. induction ds as [|d ds IH]; intros n Hds; [done|].
  inversion_clear Hds as [|? ? Hd Hds']. simpl. f_equal; [apply Hd|].
  etrans; [|apply (IH (S n) Hds')]. f_equal. apply imap_ext.
  intros i x _. simpl. f_equal. lia.
Qed.

Lemma lookup_imap_with_oid (k : string) (ds : list doc) (n : nat) :
  k <> "_id" ->
  (fun d : doc => d !! k) <$> imap (fun i d => with_oid (n + i) d) ds =
  (fun d : doc => d !! k) <$> ds.
Proof.
  intros Hk. apply fmap_imap_with_oid, Forall_forall.
  intros d _ m. by apply with_oid_lookup_ne.
Qed.

Lemma seed_data_seeded (db : database) : seeded (seed_data db).1.
Proof.
  unfold seeded. rewrite seed_data_destinations, seed_data_trips.
  rewrite !length_imap.
  rewrite (strip_imap_with_oid _ _ destinations_data_no_oid).
  rewrite (strip_imap_with_oid _ _ trips_data_no_oid).
  done.
Qed.

Lemma seeded_get_destinations (db : database) :
  seeded db -> get_destinations db = destinations_data.
Proof.
  intros (Hd & _). unfold get_destinations, to_list.
  rewrite find_all, Hd. reflexivity.
Qed.

Lemma seeded_get_trips (db : database) :
  seeded db -> get_trips None db = trips_data.
Proof.
  intros (_ & Ht & _). unfold get_trips, to_list.
  rewrite find_all, Ht. reflexivity.
Qed.

(** C2: Seed is idempotent.  After a first seed of any store, and again
    after a second seed right behind it, the destinations and the trips are
    exactly the four fixed records each (a stored record is the fixed one
    plus the store's [_id]), the two listings return the fixed records, and
    each call returns the summary with 4 destinations and 4 trips. *)
Theorem seed_data_idempotent (db : database) :
  let r1 := seed_data db in
  let r2 := seed_data r1.1 in
  seeded r1.1 /\ seeded r2.1 /\
  r1.2 !! "destinations" = Some (VInt 4) /\ r1.2 !! "trips" = Some (VInt 4) /\
  r2.2 !! "destinations" = Some (VInt 4) /\ r2.2 !! "trips" = Some (VInt 4) /\
  get_destinations r1.1 = destinations_data /\
  get_destinations r2.1 = destinations_data /\
  get_trips None r1.1 = trips_data /\
  get_trips None r2.1 = trips_data.
Proof.
  intros r1 r2. subst r1 r2.
  pose proof (seed_data_seeded db) as H1.
  pose proof (seed_data_seeded (seed_data db).1) as H2.
  rewrite !seed_data_summary.
  repeat split; try done; try apply H1; try apply H2;
    auto using seeded_get_destinations, seeded_get_trips.
Qed.

(** C6: Seed leaves the bookings as they were, whatever the store held:
    the collection after the call is the collection before it, and so is
    its length. *)
Theorem seed_data_bookings_unchanged (db : database) :
  bookings (seed_data db).1 = bookings db /\
  length (bookings (seed_data db).1) = length (bookings db) /\
  bookings (seed_data (seed_data db).1).1 = bookings db.
Proof.
  assert (H : forall d, bookings (seed_data d).1 = bookings d).
  { intros d. unfold seed_data. rewrite !delete_many_all, !insert_many_spec.
    reflexivity. }
  rewrite !H. done.
Qed.

(** C10: right after Seed every seeded trip refers to a seeded
    destination: the trips are trip-1 to trip-4, the destinations dest-1 to
    dest-4, and trip-N has destination_id dest-N. *)
Theorem seed_data_referential_integrity (db : database) :
  let db' := (seed_data db).1 in
  (fun t : doc => (t !! "id", t !! "destination_id")) <$> trips db' =
    [(Some (VStr "trip-1"), Some (VStr "dest-1"));
     (Some (VStr "trip-2"), Some (VStr "dest-2"));
     (Some (VStr "trip-3"), Some (VStr "dest-3"));
     (Some (VStr "trip-4"), Some (VStr "dest-4"))] /\
  (fun d : doc => d !! "id") <$> destinations db' =
    [Some (VStr "dest-1"); Some (VStr "dest-2");
     Some (VStr "dest-3"); Some (VStr "dest-4")] /\
  (forall t : doc, t ∈ trips db' ->
     exists (d : doc) (x : string),
       d ∈ destinations db' /\
       t !! "destination_id" = Some (VStr x) /\ d !! "id" = Some (VStr x)).
Proof.
  intros db'. subst db'.
  assert (Ht : (fun t : doc => (t !! "id", t !! "destination_id")) <$>
               trips (seed_data db).1 =
    [(Some (VStr "trip-1"), Some (VStr "dest-1"));
     (Some (VStr "trip-2"), Some (VStr "dest-2"));
     (Some (VStr "trip-3"), Some (VStr "dest-3"));
     (Some (VStr "trip-4"), Some (VStr "dest-4"))]).
  { rewrite seed_data_trips, fmap_imap_with_oid; [reflexivity|].
    apply Forall_forall. intros d _ m.
    by rewrite !with_oid_lookup_ne. }
  assert (Hd : (fun d : doc => d !! "id") <$> destinations (seed_data db).1 =
    [Some (VStr "dest-1"); Some (VStr "dest-2");
     Some (VStr "dest-3"); Some (VStr "dest-4")]).
  { rewrite seed_data_destinations, lookup_imap_with_oid; done. }
  split; [exact Ht|]. split; [exact Hd|].
  intros t Hin.
  assert (Hdest : forall x, Some (VStr x) ∈
            [Some (VStr "dest-1"); Some (VStr "dest-2");
             Some (VStr "dest-3"); Some (VStr "dest-4")] ->
          exists d : doc, d ∈ destinations (seed_data db).1 /\ d !! "id" = Some (VStr x)).
  { intros x Hx. rewrite <- Hd in Hx.
    apply list_elem_of_fmap in Hx as (d & Heq & Hd'). eauto. }
  apply (list_elem_of_fmap_2 (fun t : doc => (t !! "id", t !! "destination_id"))) in Hin.
  rewrite Ht in Hin.
  repeat (apply elem_of_cons in Hin as [Hin|Hin]);
    [..|by apply elem_of_nil in Hin];
    injection Hin as _ Hdid;
    match type of Hdid with _ = Some (VStr ?x) =>
      destruct (Hdest x) as (d & ? & ?);
        [repeat constructor|exists d, x; repeat split; assumption] end.
Qed.

(** ** Listing *)

Lemma field_is_true (d : doc) (k s : string) :
  field_is d k s = true <-> d !! k = Some (VStr s).
Proof.
  unfold field_is. destruct (d !! k) as [[]|]; try (split; [discriminate|congruence]).
  rewrite bool_decide_eq_true. split; congruence.
Qed.

Lemma field_is_false (d : doc) (k s : string) :
  field_is d k s = false <-> d !! k <> Some (VStr s).
Proof. rewrite <- field_is_true. destruct (field_is d k s); split; congruence. Qed.

Lemma matches_one (k s : string) (d : doc) : matches [(k, s)] d = field_is d k s.
Proof. unfold matches. simpl. apply andb_true_r. Qed.

Lemma filter_none {A} (f : A -> bool) (l : list A) :
  (forall x, x ∈ l -> f x = false) -> List.filter f l = [].
Proof.
  induction l as [|a l IH]; intros H; [done|]. simpl.
  rewrite (H a) by set_solver. apply IH. intros x Hx. apply H. set_solver.
Qed.

Lemma elem_of_list_filter {A} (f : A -> bool) (l : list A) (x : A) :
  x ∈ List.filter f l <-> x ∈ l /\ f x = true.
Proof. rewrite !list_elem_of_In. apply filter_In. Qed.

(** What [find] returns never has the key it was told to leave out. *)
Lemma find_no_oid (q : query) (c : list doc) :
  Forall (fun d : doc => d !! "_id" = None) (find q ["_id"] c).
Proof.
  unfold find. apply Forall_fmap, Forall_forall. intros d _. simpl.
  apply lookup_delete_eq.
Qed.

Lemma find_elem_of (q : query) (c : list doc) (d : doc) :
  d ∈ find q ["_id"] c <-> exists s, d = delete "_id" s /\ s ∈ c /\ matches q s = true.
Proof.
  unfold find. rewrite list_elem_of_fmap. setoid_rewrite elem_of_list_filter.
  split; intros (s & ? & ? & ?); exists s; done.
Qed.

Lemma elem_of_to_list (n : nat) (c : list doc) (d : doc) : d ∈ to_list n c -> d ∈ c.
Proof.
  unfold to_list. rewrite elem_of_take. intros (i & Hi & _).
  by apply list_elem_of_lookup_2 in Hi.
Qed.

(** The filter [get_trips] builds from its parameter. *)
Lemma get_trips_filtered (x : string) (db : database) :
  x <> "" ->
  get_trips (Some x) db = to_list 1000 (find [("destination_id", x)] ["_id"] (trips db)).
Proof.
  intros Hx. unfold get_trips, str_truthy.
  by rewrite bool_decide_eq_false_2.
Qed.

Lemma get_trips_unfiltered (db : database) :
  get_trips (Some "") db = get_trips None db.
Proof. reflexivity. Qed.

Lemma find_by_destination (x : string) (db : database) :
  find [("destination_id", x)] ["_id"] (trips db) =
  delete "_id" <$> trips_of_destination x db.
Proof.
  unfold find, trips_of_destination. f_equal.
  apply filter_ext. intros t. apply matches_one.
Qed.

Lemma get_trips_no_match (x : string) (db : database) :
  x <> "" ->
  (forall s : doc, s ∈ trips db -> s !! "destination_id" <> Some (VStr x)) ->
  get_trips (Some x) db = [].
Proof.
  intros Hx Hnone. rewrite get_trips_filtered, find_by_destination by done.
  unfold trips_of_destination. rewrite filter_none; [done|].
  intros s Hs. by apply field_is_false, Hnone.
Qed.



(** ** Reading one trip *)

Lemma dict_truthy_lookup (d : doc) (k : string) (v : value) :
  d !! k = Some v -> dict_truthy d = true.
Proof.
  intros H. unfold dict_truthy. rewrite bool_decide_eq_false_2; [done|].
  intros Hsz. apply map_size_empty_iff in Hsz. subst d.
  by rewrite lookup_empty in H.
Qed.

Lemma find_one_none (q : query) (c : list doc) :
  find_one q ["_id"] c = None <-> forall s, s ∈ c -> matches q s = false.
Proof.
  unfold find_one, find. rewrite head_None. split.
  - intros H%fmap_nil_inv s Hs. destruct (matches q s) eqn:E; [|done].
    assert (Hin : s ∈ List.filter (matches q) c) by by apply elem_of_list_filter.
    rewrite H in Hin. by apply elem_of_nil in Hin.
  - intros Hn. by rewrite filter_none.
Qed.

Lemma find_one_some (q : query) (c : list doc) (d : doc) :
  find_one q ["_id"] c = Some d ->
  exists s, d = delete "_id" s /\ s ∈ c /\ matches q s = true.
Proof.
  unfold find_one. intros H. apply find_elem_of.
  by apply head_Some_elem_of.
Qed.

(** [get_trip] raises nothing but the 404, and it returns a stored trip of
    that identifier, without its [_id], when there is one. *)
Lemma get_trip_cases (trip_id : string) (db : database) :
  (get_trip trip_id db = Raise (HTTPException 404 "Trip not found") /\
   forall s : doc, s ∈ trips db -> s !! "id" <> Some (VStr trip_id)) \/
  (exists s : doc, s ∈ trips db /\ s !! "id" = Some (VStr trip_id) /\
                   get_trip trip_id db = Ok (delete "_id" s)).
Proof.
  unfold get_trip. destruct (find_one _ _ _) as [t|] eqn:E.
  - right. apply find_one_some in E as (s & -> & Hs & Hm).
    rewrite matches_one in Hm. apply field_is_true in Hm.
    exists s. split; [done|]. split; [done|].
    rewrite (dict_truthy_lookup _ "id" (VStr trip_id)); [done|].
    by rewrite lookup_delete_ne.
  - left. split; [done|]. intros s Hs.
    apply field_is_false. rewrite <- matches_one.
    by apply (proj1 (find_one_none _ _) E).
Qed.

Lemma parse_booking_date_raises (d : doc) (e : exn) :
  parse_booking_date d = Raise e -> e = ValueError.
Proof.
  unfold parse_booking_date.
  destruct (d !! "booking_date") as [[| | | |s| | | |]|]; try discriminate.
  destruct (fromisoformat s); simpl; congruence.
Qed.

Lemma for_each_cons (body : doc -> result doc) (d : doc) (l : list doc) :
  for_each body (d :: l) =
  match body d with
  | Ok d' => match for_each body l with
             | Ok l' => Ok (d' :: l')
             | Raise e => Raise e
             end
  | Raise e => Raise e
  end.
Proof. simpl. destruct (body d); [|done]. simpl. by destruct (for_each body l). Qed.

Lemma for_each_raises (l : list doc) (e : exn) :
  for_each parse_booking_date l = Raise e -> e = ValueError.
Proof.
  revert e. induction l as [|d l IH]; intros e; [discriminate|].
  rewrite for_each_cons.
  destruct (parse_booking_date d) eqn:Ed.
  - destruct (for_each parse_booking_date l); [discriminate|].
    intros [= <-]. by apply IH.
  - intros [= <-]. by apply parse_booking_date_raises in Ed.
Qed.

Section Routes.
Context `{Validators}.

Lemma create_destination_raises input b db e :
  create_destination input b db = Raise e -> e = ValidationError.
Proof.
  unfold create_destination. destruct (Destination.init _ _); simpl; congruence.
Qed.

Lemma create_trip_raises input b db e :
  create_trip input b db = Raise e -> e = ValidationError.
Proof.
  unfold create_trip. destruct (TripPackage.init _ _); simpl; congruence.
Qed.

Lemma create_booking_raises input b clock db e :
  create_booking input b clock db = Raise e ->
  e = ValidationError \/ e = AttributeError.
Proof.
  unfold create_booking. destruct (Booking.init _ _ _); simpl; [|intros [= <-]; auto].
  destruct (_ !! "booking_date") as [[]|]; simpl; intros [= <-]; auto.
Qed.

Lemma commit_raises {A} db (wrap : A -> returned) (r : result (database * A)) db' e :
  commit db wrap r = (db', Raise e) -> r = Raise e.
Proof. destruct r as [[]|]; simpl; congruence. Qed.

Lemma bind_or_raise_raises {A B} (o : option A) (k : A -> result B) e :
  (or_raise ValidationError o ≫= k) = Raise e ->
  e = ValidationError \/ exists a, k a = Raise e.
Proof. destruct o; simpl; [eauto|intros [= <-]; auto]. Qed.

End Routes.

(** ** Reading the bookings *)

Lemma parse_booking_date_ok (d : doc) :
  readable d -> exists d', parse_booking_date d = Ok d'.
Proof.
  intros Hr. unfold parse_booking_date.
  destruct (d !! "booking_date") as [[| | | |s| | | |]|] eqn:E; eauto.
  destruct (Hr s E) as [t Ht]. rewrite Ht. simpl. eauto.
Qed.

Lemma parse_booking_date_raise (d : doc) (e : exn) :
  parse_booking_date d = Raise e -> ~ readable d.
Proof.
  unfold parse_booking_date. intros Hp Hr.
  destruct (d !! "booking_date") as [[| | | |s| | | |]|] eqn:E; try discriminate.
  destruct (Hr s E) as [t Ht]. rewrite Ht in Hp. discriminate.
Qed.

Lemma parse_booking_date_no_oid (d d' : doc) :
  parse_booking_date d = Ok d' -> d !! "_id" = None -> d' !! "_id" = None.
Proof.
  unfold parse_booking_date.
  destruct (d !! "booking_date") as [[| | | |s| | | |]|]; try congruence.
  destruct (fromisoformat s); simpl; [|discriminate].
  intros [= <-] Hd. by rewrite lookup_insert_ne.
Qed.

Lemma for_each_ok (body : doc -> result doc) (l l' : list doc) :
  for_each body l = Ok l' -> Forall2 (fun d d' => body d = Ok d') l l'.
Proof.
  revert l'. induction l as [|d l IH]; intros l'.
  - intros [= <-]. constructor.
  - rewrite for_each_cons. destruct (body d) eqn:Ed; [|discriminate].
    destruct (for_each body l); [|discriminate].
    intros [= <-]. constructor; auto.
Qed.

Lemma for_each_total (body : doc -> result doc) (l : list doc) :
  Forall (fun d => exists d', body d = Ok d') l -> exists l', for_each body l = Ok l'.
Proof.
  induction 1 as [|d l [d' Hd] _ [l' Hl]]; [by exists []|].
  exists (d' :: l'). by rewrite for_each_cons, Hd, Hl.
Qed.

Lemma for_each_raise (body : doc -> result doc) (l : list doc) (e : exn) :
  for_each body l = Raise e -> exists d, d ∈ l /\ body d = Raise e.
Proof.
  induction l as [|d l IH]; [discriminate|]. rewrite for_each_cons.
  destruct (body d) eqn:Ed.
  - destruct (for_each body l); [discriminate|]. intros [= <-].
    destruct IH as (d' & ? & ?); [done|]. exists d'. set_solver.
  - intros [= <-]. exists d. set_solver.
Qed.

Lemma readable_delete_oid (d : doc) : readable d -> readable (delete "_id" d).
Proof. intros Hr s. rewrite lookup_delete_ne by done. apply Hr. Qed.

Lemma bookings_readable_listed (db : database) :
  bookings_readable db ->
  Forall readable (to_list 1000 (find [] ["_id"] (bookings db))).
Proof.
  intros Hr. unfold to_list. apply Forall_take. rewrite find_all.
  apply Forall_fmap. eapply Forall_impl; [exact Hr|].
  intros d. apply readable_delete_oid.
Qed.


(** ** Timestamps written and read back *)

Lemma digit_val_char (m : Z) : 0 <= m < 10 -> digit_val (digit_char m) = Some m.
Proof.
  intros Hm.
  assert (Hc : m = 0 \/ m = 1 \/ m = 2 \/ m = 3 \/ m = 4 \/ m = 5 \/ m = 6 \/
               m = 7 \/ m = 8 \/ m = 9) by lia.
  repeat (destruct Hc as [->|Hc]; [reflexivity|]). by subst m.
Qed.

Lemma zfill_length (w : nat) (n : Z) : length (zfill w n) = w.
Proof.
  revert n. induction w as [|w IH]; intros n; simpl; [done|].
  rewrite length_app, IH. simpl. lia.
Qed.

Lemma parse_digits_snoc (l : list ascii) (c : ascii) :
  parse_digits (l ++ [c]) =
  a ← parse_digits l; v ← digit_val c; Some (a * 10 + v).
Proof. unfold parse_digits. by rewrite foldl_app. Qed.

Lemma parse_digits_zfill (w : nat) (n : Z) :
  0 <= n < 10 ^ Z.of_nat w -> parse_digits (zfill w n) = Some n.
Proof.
  revert n. induction w as [|w IH]; intros n Hn.
  - change (10 ^ Z.of_nat 0) with 1 in Hn. unfold parse_digits. simpl.
    f_equal. lia.
  - simpl zfill. rewrite parse_digits_snoc, IH.
    + cbn [mbind option_bind].
      rewrite digit_val_char by (apply Z.mod_pos_bound; lia).
      cbn [mbind option_bind]. f_equal. pose proof (Z.div_mod n 10). lia.
    + rewrite Nat2Z.inj_succ, Z.pow_succ_r in Hn by lia.
      split; [apply Z.div_pos; lia|].
      apply Z.div_lt_upper_bound; lia.
Qed.

Lemma read_int_zfill (w : nat) (n : Z) (rest : list ascii) :
  0 <= n < 10 ^ Z.of_nat w -> read_int w (zfill w n ++ rest) = Some (n, rest).
Proof.
  intros Hn. unfold read_int.
  rewrite take_app_length', drop_app_length' by (by rewrite zfill_length).
  rewrite decide_True by apply zfill_length.
  by rewrite parse_digits_zfill.
Qed.

Lemma expect_head (c : ascii) (rest : list ascii) : expect c (c :: rest) = Some rest.
Proof. simpl. by rewrite decide_True. Qed.

Lemma parse_offset_format (tz : option Z) :
  match tz with Some off => -1440 < off < 1440 | None => True end ->
  parse_offset (format_offset tz) = Some tz.
Proof.
  destruct tz as [off|]; [|done]. intros Hoff. unfold format_offset.
  assert (Ha : 0 <= Z.abs off < 1440) by lia.
  assert (Hh : 0 <= Z.abs off / 60 < 24).
  { split; [apply Z.div_pos; lia|apply Z.div_lt_upper_bound; lia]. }
  assert (Hm : 0 <= Z.abs off mod 60 < 60) by (apply Z.mod_pos_bound; lia).
  pose proof (Z.div_mod (Z.abs off) 60) as Hdm.
  assert (Hbody : forall c sign,
    (if decide (c = "+"%char) then Some 1
     else if decide (c = "-"%char) then Some (-1) else None) = Some sign ->
    parse_offset (c :: zfill 2 (Z.abs off / 60) ++ ":"%char :: zfill 2 (Z.abs off mod 60)) =
    Some (Some (sign * Z.abs off))).
  { intros c sign Hc. unfold parse_offset. rewrite Hc. cbn [mbind option_bind].
    rewrite read_int_zfill by (change (Z.of_nat 2) with 2; lia).
    cbn [mbind option_bind]. rewrite expect_head. cbn [mbind option_bind].
    rewrite <- (app_nil_r (zfill 2 (Z.abs off mod 60))).
    rewrite read_int_zfill by (change (Z.of_nat 2) with 2; lia).
    cbn [mbind option_bind].
    rewrite (proj2 (Z.ltb_lt _ _)) by lia.
    rewrite (proj2 (Z.ltb_lt _ _)) by lia.
    cbn [andb]. do 3 f_equal. lia. }
  destruct (off <? 0) eqn:Hs.
  - rewrite (Hbody _ (-1)) by done. do 2 f_equal. apply Z.ltb_lt in Hs. lia.
  - rewrite (Hbody _ 1) by done. do 2 f_equal. apply Z.ltb_ge in Hs. lia.
Qed.

Lemma days_in_month_le (y m : Z) : days_in_month y m <= 31.
Proof. unfold days_in_month. repeat case_match; lia. Qed.

Lemma parse_fraction_format (us : Z) (tz : option Z) :
  0 <= us < 1000000 ->
  parse_fraction ((if us =? 0 then [] else "."%char :: zfill 6 us) ++ format_offset tz) =
  Some (us, format_offset tz).
Proof.
  intros Hus. destruct (us =? 0) eqn:E.
  - apply Z.eqb_eq in E. subst us. rewrite app_nil_l.
    destruct tz as [off|]; [|done]. unfold format_offset.
    by destruct (off <? 0).
  - rewrite <- app_comm_cons. unfold parse_fraction.
    by rewrite read_int_zfill by (change (Z.of_nat 6) with 6; lia).
Qed.

(** What [isoformat] writes, [fromisoformat] reads back as the same
    timestamp. *)
Lemma fromisoformat_isoformat (d : datetime) :
  valid_datetime d = true -> fromisoformat (isoformat d) = Some d.
Proof.
  intros Hv. pose proof Hv as Hv'. unfold valid_datetime in Hv'.
  destruct d as [y mo dd hh mi ss us tz].
  cbn [year month day hour minute second microsecond tzinfo] in Hv'.
  repeat (apply andb_prop in Hv' as [Hv' ?]).
  repeat match goal with
         | H : (_ <=? _) = true |- _ => apply Z.leb_le in H
         | H : (_ <? _) = true |- _ => apply Z.ltb_lt in H
         end.
  pose proof (days_in_month_le y mo).
  assert (Htz : match tz with Some off => -1440 < off < 1440 | None => True end).
  { destruct tz as [off|]; [|done].
    match goal with H : _ && _ = true |- _ => apply andb_prop in H as [?%Z.ltb_lt ?%Z.ltb_lt] end.
    done. }
  unfold fromisoformat, isoformat.
  cbn [year month day hour minute second microsecond tzinfo].
  rewrite list_ascii_of_string_of_list_ascii.
  rewrite read_int_zfill by (change (Z.of_nat 4) with 4; lia).
  cbn [mbind option_bind]. rewrite expect_head. cbn [mbind option_bind].
  rewrite read_int_zfill by (change (Z.of_nat 2) with 2; lia).
  cbn [mbind option_bind]. rewrite expect_head. cbn [mbind option_bind].
  rewrite read_int_zfill by (change (Z.of_nat 2) with 2; lia).
  cbn [mbind option_bind].
  rewrite read_int_zfill by (change (Z.of_nat 2) with 2; lia).
  cbn [mbind option_bind]. rewrite expect_head. cbn [mbind option_bind].
  rewrite read_int_zfill by (change (Z.of_nat 2) with 2; lia).
  cbn [mbind option_bind]. rewrite expect_head. cbn [mbind option_bind].
  rewrite read_int_zfill by (change (Z.of_nat 2) with 2; lia).
  cbn [mbind option_bind].
  rewrite parse_fraction_format by lia. cbn [mbind option_bind].
  rewrite parse_offset_format by done. cbn [mbind option_bind].
  by rewrite Hv.
Qed.

(** ** Building a record from the fields of another *)

Lemma required_lookup {A} (kw : doc) (k : string) (f : value -> option A) (v : value) :
  kw !! k = Some v -> required kw k f = f v.
Proof. intros H. unfold required. by rewrite H. Qed.

Lemma defaulted_absent {A} (kw : doc) (k : string) (f : value -> option A) (dflt : A) :
  kw !! k = None -> defaulted kw k f dflt = Some dflt.
Proof. intros H. unfold defaulted. by rewrite H. Qed.

Lemma list_str_of_value_strs (l : list string) : list_str_of_value (VStrs l) = Some l.
Proof. unfold list_str_of_value, VStrs. by apply mapM_fmap_Some. Qed.

Ltac init_dump :=
  repeat first
    [ rewrite defaulted_absent by reflexivity
    | erewrite required_lookup by reflexivity
    | rewrite list_str_of_value_strs
    | rewrite float_of_value_float
    | rewrite int_of_value_int
    | progress cbn [snd str_of_value mbind option_bind] ].

Lemma Destination_init_dump (input : DestinationCreate.t) (b : Z) :
  Destination.init b (DestinationCreate.model_dump input) =
  Some (new_destination input b).
Proof. unfold Destination.init. init_dump. reflexivity. Qed.

Lemma create_destination_returns (input : DestinationCreate.t) (b : Z) (db : database) :
  create_destination input b db =
  Ok (mk_database
        (destinations db ++
           [<["_id" := VOid (next_oid db)]> (Destination.model_dump (new_destination input b))])
        (trips db) (bookings db) (S (next_oid db)),
      new_destination input b).
Proof.
  unfold create_destination. rewrite Destination_init_dump.
  cbn [or_raise mbind result_bind]. unfold insert_one.
  by rewrite with_oid_fresh by reflexivity.
Qed.

Section Create.
Context `{Validators}.

Lemma TripPackage_init_dump (input : TripPackageCreate.t) (b : Z) :
  TripPackage.init b (TripPackageCreate.model_dump input) = Some (new_trip input b).
Proof. unfold TripPackage.init. init_dump. reflexivity. Qed.

Lemma create_trip_returns (input : TripPackageCreate.t) (b : Z) (db : database) :
  create_trip input b db =
  Ok (mk_database (destinations db)
        (trips db ++
           [<["_id" := VOid (next_oid db)]> (TripPackage.model_dump (new_trip input b))])
        (bookings db) (S (next_oid db)),
      new_trip input b).
Proof.
  unfold create_trip. rewrite TripPackage_init_dump.
  cbn [or_raise mbind result_bind]. unfold insert_one.
  by rewrite with_oid_fresh by reflexivity.
Qed.

Lemma Booking_init_dump (input : BookingCreate.t) (b : Z) (clock : datetime) :
  Booking.init b clock (BookingCreate.model_dump input) = Some (new_booking input b clock).
Proof. unfold Booking.init. init_dump. reflexivity. Qed.

Lemma create_booking_returns (input : BookingCreate.t) (b : Z) (clock : datetime)
    (db : database) :
  create_booking input b clock db =
  Ok (mk_database (destinations db) (trips db)
        (bookings db ++
           [<["_id" := VOid (next_oid db)]> (booking_doc (new_booking input b clock))])
        (S (next_oid db)),
      new_booking input b clock).
Proof.
  unfold create_booking. rewrite Booking_init_dump.
  cbn [or_raise mbind result_bind].
  rewrite (eq_refl : Booking.model_dump (new_booking input b clock) !! "booking_date" =
                     Some (VDatetime (now_utc clock))).
  cbn [mbind result_bind]. unfold insert_one.
  by rewrite with_oid_fresh by reflexivity.
Qed.
End Create.

(** A destination that was created is listed, as the record that was
    returned, while the collection is within the cap of the listing. *)
Lemma create_destination_listed (input : DestinationCreate.t) (b : Z) (db db' : database)
    (o : Destination.t) :
  create_destination input b db = Ok (db', o) ->
  (length (destinations db) < 1000)%nat ->
  get_destinations db' = get_destinations db ++ [Destination.model_dump o].
Proof.
  rewrite create_destination_returns. intros [= <- <-] Hlen.
  unfold get_destinations. cbn [destinations]. rewrite listed_snoc by done.
  by rewrite delete_insert_id by reflexivity.
Qed.

(** ** Fields the client sends and the schema does not have *)

Lemma required_agree {A} (kw kw' : doc) (k : string) (f : value -> option A) :
  kw' !! k = kw !! k -> required kw' k f = required kw k f.
Proof. intros Hk. unfold required. by rewrite Hk. Qed.

(** A schema reads its own fields of the body and nothing else. *)
Lemma DestinationCreate_init_agree (kw kw' : doc) :
  (forall k, k ∈ DestinationCreate.fields -> kw' !! k = kw !! k) ->
  DestinationCreate.init kw' = DestinationCreate.init kw.
Proof.
  intros Hk. unfold DestinationCreate.init.
  rewrite !(required_agree kw kw') by (apply Hk; repeat constructor). done.
Qed.

Lemma model_dump_keys (l : list (string * value)) (k : string) (v : value) (n : nat) :
  <["_id" := VOid n]> (list_to_map l : doc) !! k = Some v -> k ∈ "_id" :: l.*1.
Proof.
  destruct (decide (k = "_id")) as [->|Hne]; [constructor|].
  rewrite lookup_insert_ne by done. intros Hl.
  apply elem_of_list_to_map_2 in Hl. right.
  by apply (list_elem_of_fmap_2 fst) in Hl.
Qed.

Section Extra.
Context `{Validators}.

Lemma TripPackageCreate_init_agree (kw kw' : doc) :
  (forall k, k ∈ TripPackageCreate.fields -> kw' !! k = kw !! k) ->
  TripPackageCreate.init kw' = TripPackageCreate.init kw.
Proof.
  intros Hk. unfold TripPackageCreate.init.
  rewrite !(required_agree kw kw') by (apply Hk; repeat constructor). done.
Qed.

Lemma BookingCreate_init_agree (kw kw' : doc) :
  (forall k, k ∈ BookingCreate.fields -> kw' !! k = kw !! k) ->
  BookingCreate.init kw' = BookingCreate.init kw.
Proof.
  intros Hk. unfold BookingCreate.init.
  rewrite !(required_agree kw kw') by (apply Hk; repeat constructor). done.
Qed.

End Extra.

(** ** Bookings *)

Lemma for_each_snoc (body : doc -> result doc) (l l' : list doc) (d d' : doc) :
  for_each body l = Ok l' -> body d = Ok d' ->
  for_each body (l ++ [d]) = Ok (l' ++ [d']).
Proof.
  revert l'. induction l as [|a l IH]; intros l' Hl Hd.
  - injection Hl as <-. simpl app. by rewrite for_each_cons, Hd.
  - rewrite for_each_cons in Hl. rewrite <- app_comm_cons, for_each_cons.
    destruct (body a); [|discriminate].
    destruct (for_each body l) as [l0|] eqn:E; [|discriminate].
    injection Hl as <-. by rewrite (IH l0 eq_refl Hd).
Qed.

Lemma parse_booking_date_structured (d : doc) :
  (forall s, d !! "booking_date" <> Some (VStr s)) -> parse_booking_date d = Ok d.
Proof.
  intros Hd. unfold parse_booking_date.
  destruct (d !! "booking_date") as [[| | | |s| | | |]|] eqn:E; try done.
  by destruct (Hd s).
Qed.

Lemma parse_booking_date_string (d : doc) (s : string) (t : datetime) :
  d !! "booking_date" = Some (VStr s) -> fromisoformat s = Some t ->
  parse_booking_date d = Ok (<["booking_date" := VDatetime t]> d).
Proof. intros Hd Hs. unfold parse_booking_date. by rewrite Hd, Hs. Qed.

Lemma parse_booking_doc (o : Booking.t) :
  valid_datetime (Booking.booking_date o) = true ->
  parse_booking_date (booking_doc o) = Ok (Booking.model_dump o).
Proof.
  intros Hv.
  rewrite (parse_booking_date_string _ (isoformat (Booking.booking_date o))
             (Booking.booking_date o)).
  - unfold booking_doc. rewrite insert_insert_eq.
    by rewrite insert_id by reflexivity.
  - apply lookup_insert_eq.
  - by apply fromisoformat_isoformat.
Qed.

Lemma booking_doc_no_oid (o : Booking.t) : booking_doc o !! "_id" = None.
Proof. unfold booking_doc. rewrite lookup_insert_ne by done. reflexivity. Qed.

Section Bookings.
Context `{Validators}.


End Bookings.

(** ** Identifiers *)

Lemma bits_high_small (a n m : Z) : 0 <= a < 2 ^ n -> n <= m -> Z.testbit a m = false.
Proof.
  intros Ha Hm. destruct (Z.le_gt_cases 0 n) as [Hn|Hn].
  - rewrite <- (Z.mod_small a (2 ^ n)) by done. apply Z.mod_pow2_bits_high. lia.
  - rewrite Z.pow_neg_r in Ha by done. lia.
Qed.

Lemma small_bits_high (a n : Z) :
  0 <= a -> 0 <= n -> (forall m, n <= m -> Z.testbit a m = false) -> a < 2 ^ n.
Proof.
  intros Ha Hn Hbits.
  assert (Hmod : a mod 2 ^ n = a).
  { apply Z.bits_inj'. intros m Hm. destruct (Z.lt_ge_cases m n) as [Hlt|Hge].
    - by apply Z.mod_pow2_bits_low.
    - rewrite Z.mod_pow2_bits_high by lia. symmetry. by apply Hbits. }
  rewrite <- Hmod. apply Z.mod_pos_bound. by apply Z.pow_pos_nonneg.
Qed.

(** A UUID of version 4 is a number of 128 bits. *)
Lemma UUID_v4_range (b : Z) : 0 <= b < 2 ^ 128 -> 0 <= UUID_v4 b < 2 ^ 128.
Proof.
  intros Hb. unfold UUID_v4. split.
  - apply Z.lor_nonneg. split; [|done].
    apply Z.land_nonneg. left. apply Z.lor_nonneg. split; [|done].
    apply Z.land_nonneg. left. lia.
  - apply small_bits_high; [|lia|].
    + apply Z.lor_nonneg. split; [|done].
      apply Z.land_nonneg. left. apply Z.lor_nonneg. split; [|done].
      apply Z.land_nonneg. left. lia.
    + intros m Hm.
      rewrite Z.lor_spec, Z.land_spec, Z.lor_spec, Z.land_spec.
      rewrite (bits_high_small b 128 m) by done.
      rewrite !Z.shiftl_spec by lia.
      rewrite (Z.bits_above_log2 0x8000 (m - 48)) by (simpl; lia).
      rewrite (Z.bits_above_log2 4 (m - 76)) by (simpl; lia).
      reflexivity.
Qed.

Lemma hex_val_char (m : Z) : 0 <= m < 16 -> hex_val (hex_char m) = m.
Proof.
  intros Hm.
  assert (Hc : m = 0 \/ m = 1 \/ m = 2 \/ m = 3 \/ m = 4 \/ m = 5 \/ m = 6 \/
               m = 7 \/ m = 8 \/ m = 9 \/ m = 10 \/ m = 11 \/ m = 12 \/ m = 13 \/
               m = 14 \/ m = 15) by lia.
  repeat (destruct Hc as [->|Hc]; [reflexivity|]). by subst m.
Qed.

Lemma hex_length (w : nat) (n : Z) : length (hex w n) = w.
Proof.
  revert n. induction w as [|w IH]; intros n; [done|].
  cbn [hex]. rewrite length_app, IH. simpl. lia.
Qed.

(** Two numbers of [w] hexadecimal digits with the same digits are the
    same number. *)
Lemma hex_inj (w : nat) (n1 n2 : Z) :
  0 <= n1 < 16 ^ Z.of_nat w -> 0 <= n2 < 16 ^ Z.of_nat w ->
  hex w n1 = hex w n2 -> n1 = n2.
Proof.
  revert n1 n2. induction w as [|w IH]; intros n1 n2 H1 H2 Heq.
  - change (16 ^ Z.of_nat 0) with 1 in *. lia.
  - rewrite Nat2Z.inj_succ, Z.pow_succ_r in H1, H2 by lia.
    cbn [hex] in Heq. apply app_inj_2 in Heq as [Hhi Hlo]; [|done].
    injection Hlo as Hlo. apply (f_equal hex_val) in Hlo.
    rewrite !hex_val_char in Hlo by (apply Z.mod_pos_bound; lia).
    apply IH in Hhi.
    + pose proof (Z.div_mod n1 16). pose proof (Z.div_mod n2 16). lia.
    + split; [apply Z.div_pos; lia|apply Z.div_lt_upper_bound; lia].
    + split; [apply Z.div_pos; lia|apply Z.div_lt_upper_bound; lia].
Qed.

Lemma grouped_length (h : list ascii) : length h = 32%nat -> length (grouped h) = 36%nat.
Proof.
  intros Hh. unfold grouped.
  repeat (rewrite ?length_app, ?length_take, ?length_drop, ?Hh; cbn [length]).
  reflexivity.
Qed.

Lemma grouped_inj (h1 h2 : list ascii) :
  length h1 = 32%nat -> length h2 = 32%nat -> grouped h1 = grouped h2 -> h1 = h2.
Proof.
  intros H1 H2 Heq.
  assert (Hsplit : forall h : list ascii,
    h = take 8 h ++ take 4 (drop 8 h) ++ take 4 (drop 12 h) ++
        take 4 (drop 16 h) ++ drop 20 h).
  { intros h.
    rewrite <- (take_drop 8 h) at 1. f_equal.
    rewrite <- (take_drop 4 (drop 8 h)) at 1. f_equal. rewrite drop_drop.
    rewrite <- (take_drop 4 (drop (8 + 4) h)) at 1. f_equal. rewrite drop_drop.
    rewrite <- (take_drop 4 (drop (8 + 4 + 4) h)) at 1. f_equal. by rewrite drop_drop. }
  unfold grouped in Heq.
  apply app_inj_1 in Heq as [Ha Heq];
    [|rewrite !length_take; lia].
  injection Heq as Heq. apply app_inj_1 in Heq as [Hb Heq];
    [|rewrite !length_take, !length_drop; lia].
  injection Heq as Heq. apply app_inj_1 in Heq as [Hc Heq];
    [|rewrite !length_take, !length_drop; lia].
  injection Heq as Heq. apply app_inj_1 in Heq as [Hd Heq];
    [|rewrite !length_take, !length_drop; lia].
  injection Heq as He.
  rewrite (Hsplit h1), (Hsplit h2). congruence.
Qed.

Lemma string_of_list_ascii_inj (l1 l2 : list ascii) :
  string_of_list_ascii l1 = string_of_list_ascii l2 -> l1 = l2.
Proof.
  intros Heq. apply (f_equal list_ascii_of_string) in Heq.
  by rewrite !list_ascii_of_string_of_list_ascii in Heq.
Qed.

Lemma string_of_list_ascii_length (l : list ascii) :
  String.length (string_of_list_ascii l) = length l.
Proof. induction l as [|c l IH]; [done|]. simpl. by rewrite IH. Qed.

(** [str] of a UUID has 36 characters, and different UUIDs have different
    strings. *)
Lemma UUID_str_length (u : Z) : String.length (UUID_str u) = 36%nat.
Proof.
  unfold UUID_str. rewrite string_of_list_ascii_length.
  apply (grouped_length (hex 32 u)), hex_length.
Qed.

Lemma UUID_str_inj (u1 u2 : Z) :
  0 <= u1 < 2 ^ 128 -> 0 <= u2 < 2 ^ 128 -> UUID_str u1 = UUID_str u2 -> u1 = u2.
Proof.
  intros H1 H2 Heq. unfold UUID_str in Heq.
  apply string_of_list_ascii_inj in Heq.
  apply (grouped_inj (hex 32 u1) (hex 32 u2)) in Heq; [|apply hex_length..].
  apply (hex_inj 32); [| |done].
  - change (16 ^ Z.of_nat 32) with (2 ^ 128). done.
  - change (16 ^ Z.of_nat 32) with (2 ^ 128). done.
Qed.

Lemma uuid4_str_nonempty (b : Z) : uuid4_str b <> "".
Proof.
  intros Heq. apply (f_equal String.length) in Heq.
  unfold uuid4_str in Heq. rewrite UUID_str_length in Heq. discriminate.
Qed.


(** ** What the service keeps true of the bookings *)

Lemma seed_data_bookings (db : database) : bookings (seed_data db).1 = bookings db.
Proof.
  unfold seed_data. rewrite !delete_many_all, !insert_many_spec. reflexivity.
Qed.

Lemma booking_doc_readable (o : Booking.t) (n : nat) :
  valid_datetime (Booking.booking_date o) = true ->
  readable (<["_id" := VOid n]> (booking_doc o)).
Proof.
  intros Hv s. rewrite lookup_insert_ne by done. unfold booking_doc.
  rewrite lookup_insert_eq. intros [= <-].
  rewrite fromisoformat_isoformat by done. eauto.
Qed.

Section Invariant.
Context `{Validators}.

(** No request makes the listing of the bookings fail: whatever the
    service writes into the collection can be read back. *)
Lemma serve_bookings_readable (req : request) (b : Z) (clock : datetime) (db : database) :
  valid_datetime (now_utc clock) = true ->
  bookings_readable db -> bookings_readable (serve req b clock db).1.
Proof.
  intros Hv Hr. destruct req; cbn [serve fst]; try done.
  - destruct (DestinationCreate.init body); cbn [or_raise mbind result_bind commit fst];
      [|done]. by rewrite create_destination_returns.
  - destruct (TripPackageCreate.init body); cbn [or_raise mbind result_bind commit fst];
      [|done]. by rewrite create_trip_returns.
  - destruct (BookingCreate.init body); cbn [or_raise mbind result_bind commit fst];
      [|done]. rewrite create_booking_returns. cbn [commit fst].
    unfold bookings_readable. cbn [bookings]. apply Forall_app. split; [done|].
    constructor; [|constructor]. by apply booking_doc_readable.
Qed.

Lemma run_bookings_readable (reqs : list (request * Z * datetime)) (db : database) :
  Forall (fun r => valid_datetime (now_utc r.2) = true) reqs ->
  bookings_readable db -> bookings_readable (run reqs db).
Proof.
  intros Hreqs. revert db. induction Hreqs as [|[[req b] clock] reqs Hv _ IH]; intros db Hr.
  - done.
  - cbn [run]. apply IH. by apply serve_bookings_readable.
Qed.

(** On a store the service filled itself, starting from an empty one, the
    listing of the bookings returns. *)
Lemma get_bookings_returns (reqs : list (request * Z * datetime)) :
  Forall (fun r => valid_datetime (now_utc r.2) = true) reqs ->
  exists l, get_bookings (run reqs empty_db) = Ok l.
Proof.
  intros Hreqs. unfold get_bookings. apply for_each_total.
  eapply Forall_impl.
  - apply bookings_readable_listed, run_bookings_readable; [done|]. constructor.
  - intros d. apply parse_booking_date_ok.
Qed.
End Invariant.

(** ** The theorems at work

    Each theorem that has a hypothesis, applied to the sample data. *)






(** * Further properties *)

(** ** Reading back what was created *)

(** [get_trip] returns the first stored trip that has the identifier. *)
Lemma get_trip_at (x : string) (db : database) (pre post : list doc) (s : doc) :
  trips db = pre ++ s :: post ->
  (forall t : doc, t ∈ pre -> t !! "id" <> Some (VStr x)) ->
  s !! "id" = Some (VStr x) ->
  get_trip x db = Ok (delete "_id" s).
Proof.
  intros Htrips Hpre Hs. unfold get_trip, find_one, find. rewrite Htrips.
  rewrite List.filter_app, (filter_none _ pre).
  - cbn [List.filter app]. rewrite matches_one.
    rewrite (proj2 (field_is_true s "id" x) Hs). cbn [fmap list_fmap head].
    rewrite project_id.
    rewrite (dict_truthy_lookup _ "id" (VStr x)); [done|].
    by rewrite lookup_delete_ne.
  - intros t Ht. rewrite matches_one. by apply field_is_false, Hpre.
Qed.

Lemma get_trip_app (x : string) (db db' : database) (more : list doc) (t : doc) :
  trips db' = trips db ++ more ->
  get_trip x db = Ok t -> get_trip x db' = Ok t.
Proof.
  intros Htrips Hget. unfold get_trip, find_one, find in *. rewrite Htrips.
  rewrite List.filter_app, fmap_app.
  destruct (project ["_id"] <$> List.filter (matches [("id", x)]) (trips db))
    as [|a l]; [discriminate|]. exact Hget.
Qed.

Lemma filter_sublist {A} (f : A -> bool) (l : list A) : List.filter f l `sublist_of` l.
Proof.
  induction l as [|a l IH]; [done|]. simpl.
  destruct (f a); [by apply sublist_skip|by apply sublist_cons].
Qed.

Lemma fmap_sublist {A B} (f : A -> B) (l1 l2 : list A) :
  l1 `sublist_of` l2 -> f <$> l1 `sublist_of` f <$> l2.
Proof.
  induction 1 as [|x l1 l2 _ IH|x l1 l2 _ IH]; cbn [fmap list_fmap].
  - constructor.
  - by apply sublist_skip.
  - by apply sublist_cons.
Qed.

Lemma get_trips_snoc_match (x : string) (db db' : database) (s : doc) :
  x <> "" ->
  trips db' = trips db ++ [s] ->
  s !! "destination_id" = Some (VStr x) ->
  (length (trips_of_destination x db) < 1000)%nat ->
  get_trips (Some x) db' = get_trips (Some x) db ++ [delete "_id" s].
Proof.
  intros Hx Htrips Hs Hlen.
  rewrite !get_trips_filtered, !find_by_destination by done.
  unfold trips_of_destination, to_list in *. rewrite Htrips, List.filter_app.
  cbn [List.filter]. rewrite (proj2 (field_is_true s "destination_id" x) Hs).
  rewrite fmap_app. cbn [fmap list_fmap].
  rewrite !take_ge; [done|rewrite length_fmap; lia|].
  rewrite length_app, length_fmap. simpl. lia.
Qed.

Lemma get_trips_snoc_other (x : string) (db db' : database) (s : doc) :
  x <> "" ->
  trips db' = trips db ++ [s] ->
  s !! "destination_id" <> Some (VStr x) ->
  get_trips (Some x) db' = get_trips (Some x) db.
Proof.
  intros Hx Htrips Hs.
  rewrite !get_trips_filtered, !find_by_destination by done.
  unfold trips_of_destination. rewrite Htrips, List.filter_app.
  cbn [List.filter]. rewrite (proj2 (field_is_false s "destination_id" x) Hs).
  by rewrite app_nil_r.
Qed.

Lemma listed_snoc_full (c : list doc) (d : doc) :
  (1000 <= length c)%nat ->
  to_list 1000 (find [] ["_id"] (c ++ [d])) = to_list 1000 (find [] ["_id"] c).
Proof.
  intros Hlen. unfold to_list. rewrite !find_all, fmap_app.
  apply take_app_le. by rewrite length_fmap.
Qed.

Section Further.
Context `{Validators}.


(** X2: what [get_trip] returns for an identifier never changes when
    trips are created later, not even when a later trip gets the same
    identifier: the trip stored first is the one returned. *)
Theorem get_trip_stable_under_create (x : string) (t : doc) (input : TripPackageCreate.t)
    (b : Z) (db : database) :
  get_trip x db = Ok t ->
  exists db' o,
    create_trip input b db = Ok (db', o) /\
    get_trip x db' = Ok t.
Proof.
  intros Hget. eexists _, _. split; [apply create_trip_returns|].
  eapply get_trip_app; [|exact Hget]. reflexivity.
Qed.

(** X3: a trip that was created comes last in the listing of its
    destination, as the record that was returned, while fewer than 1000
    trips of that destination are stored; the listing of every other
    destination is as before. *)
Theorem create_trip_listed_by_destination (input : TripPackageCreate.t) (b : Z)
    (db : database) :
  TripPackageCreate.destination_id input <> "" ->
  (length (trips_of_destination (TripPackageCreate.destination_id input) db) < 1000)%nat ->
  exists db' o,
    create_trip input b db = Ok (db', o) /\
    get_trips (Some (TripPackageCreate.destination_id input)) db' =
      get_trips (Some (TripPackageCreate.destination_id input)) db ++
      [TripPackage.model_dump o] /\
    (forall x, x <> "" -> x <> TripPackageCreate.destination_id input ->
       get_trips (Some x) db' = get_trips (Some x) db).
Proof.
  intros Hne Hlen. eexists _, _. split; [apply create_trip_returns|]. split.
  - erewrite get_trips_snoc_match; [| done | reflexivity | | done].
    + by rewrite delete_insert_id by reflexivity.
    + rewrite lookup_insert_ne by done. reflexivity.
  - intros x Hx Hother. eapply get_trips_snoc_other; [done|reflexivity|].
    rewrite lookup_insert_ne by done.
    change (Some (VStr (TripPackageCreate.destination_id input)) <> Some (VStr x)).
    congruence.
Qed.

(** X4: the listing shows the first 1000 records only.  A destination
    created while fewer than 1000 are stored comes last in the listing; one
    created when 1000 or more are stored is stored all the same, and the
    listing does not change. *)
Theorem create_destination_and_the_cap (input : DestinationCreate.t) (b : Z)
    (db : database) :
  exists db' o,
    create_destination input b db = Ok (db', o) /\
    length (destinations db') = S (length (destinations db)) /\
    ((length (destinations db) < 1000)%nat ->
       get_destinations db' = get_destinations db ++ [Destination.model_dump o]) /\
    ((1000 <= length (destinations db))%nat ->
       get_destinations db' = get_destinations db).
Proof.
  eexists _, _. split; [apply create_destination_returns|].
  cbn [destinations]. split; [rewrite length_app; simpl; lia|]. split.
  - intros Hlen. unfold get_destinations. cbn [destinations].
    rewrite listed_snoc by done. by rewrite delete_insert_id by reflexivity.
  - intros Hlen. unfold get_destinations. cbn [destinations].
    by rewrite listed_snoc_full.
Qed.
End Further.

(** ** Bodies the schemas refuse *)

Lemma required_missing {A} (kw : doc) (k : string) (f : value -> option A) :
  kw !! k = None -> required kw k f = None.
Proof. intros Hk. unfold required. by rewrite Hk. Qed.

Ltac refuse_missing body Hk :=
  repeat match goal with
         | |- context [required body ?k ?f] =>
             first [ rewrite (required_missing body k f Hk)
                   | destruct (required body k f) ];
             cbn [mbind option_bind]
         end;
  try reflexivity.

Lemma DestinationCreate_init_missing (body : doc) (k : string) :
  k ∈ DestinationCreate.fields -> body !! k = None -> DestinationCreate.init body = None.
Proof.
  intros Hin Hk. unfold DestinationCreate.fields in Hin.
  repeat (apply elem_of_cons in Hin as [->|Hin];
          [unfold DestinationCreate.init; refuse_missing body Hk|]).
  by apply elem_of_nil in Hin.
Qed.

Section Refused.
Context `{Validators}.

Lemma TripPackageCreate_init_missing (body : doc) (k : string) :
  k ∈ TripPackageCreate.fields -> body !! k = None -> TripPackageCreate.init body = None.
Proof.
  intros Hin Hk. unfold TripPackageCreate.fields in Hin.
  repeat (apply elem_of_cons in Hin as [->|Hin];
          [unfold TripPackageCreate.init; refuse_missing body Hk|]).
  by apply elem_of_nil in Hin.
Qed.

Lemma BookingCreate_init_missing (body : doc) (k : string) :
  k ∈ BookingCreate.fields -> body !! k = None -> BookingCreate.init body = None.
Proof.
  intros Hin Hk. unfold BookingCreate.fields in Hin.
  repeat (apply elem_of_cons in Hin as [->|Hin];
          [unfold BookingCreate.init; refuse_missing body Hk|]).
  by apply elem_of_nil in Hin.
Qed.

(** X5: a body that lacks a field of the schema of its route is refused
    with the validation error before the handler runs, and the store is as
    it was: nothing is inserted. *)
Theorem missing_field_is_refused (body : doc) (k : string) (b : Z) (clock : datetime)
    (db : database) :
  body !! k = None ->
  (k ∈ DestinationCreate.fields ->
     serve (POST_destinations body) b clock db = (db, Raise ValidationError)) /\
  (k ∈ TripPackageCreate.fields ->
     serve (POST_trips body) b clock db = (db, Raise ValidationError)) /\
  (k ∈ BookingCreate.fields ->
     serve (POST_bookings body) b clock db = (db, Raise ValidationError)).
Proof.
  intros Hk. split; [|split]; intros Hin; cbn [serve].
  - by rewrite (DestinationCreate_init_missing body k).
  - by rewrite (TripPackageCreate_init_missing body k).
  - by rewrite (BookingCreate_init_missing body k).
Qed.


(** X7: no request changes or removes a stored booking, and none but the
    seed changes or removes a stored destination or trip: after any request
    the old collection is the beginning of the new one, which is longer by
    at most one record.  The five reading routes leave the store as it
    was. *)
Theorem serve_only_appends (req : request) (b : Z) (clock : datetime) (db : database) :
  let db' := (serve req b clock db).1 in
  bookings db `prefix_of` bookings db' /\
  (length (bookings db') <= S (length (bookings db)))%nat /\
  (req <> POST_seed ->
     destinations db `prefix_of` destinations db' /\
     trips db `prefix_of` trips db' /\
     (length (destinations db') <= S (length (destinations db)))%nat /\
     (length (trips db') <= S (length (trips db)))%nat) /\
  (match req with
   | GET_root | GET_destinations | GET_trips _ | GET_trip _ | GET_bookings => db' = db
   | _ => True
   end).
Proof.
  intros db'. subst db'.
  destruct req; cbn [serve fst].
  - repeat split; try done; lia.
  - repeat split; try done; lia.
  - destruct (DestinationCreate.init body); cbn [or_raise mbind result_bind commit fst].
    + rewrite create_destination_returns. cbn [commit fst destinations trips bookings].
      repeat split; try done; try lia.
      * by apply prefix_app_r.
      * rewrite length_app. simpl. lia.
    + repeat split; try done; lia.
  - repeat split; try done; lia.
  - repeat split; try done; lia.
  - destruct (TripPackageCreate.init body); cbn [or_raise mbind result_bind commit fst].
    + rewrite create_trip_returns. cbn [commit fst destinations trips bookings].
      repeat split; try done; try lia.
      * by apply prefix_app_r.
      * rewrite length_app. simpl. lia.
    + repeat split; try done; lia.
  - repeat split; try done; lia.
  - destruct (BookingCreate.init body); cbn [or_raise mbind result_bind commit fst].
    + rewrite create_booking_returns. cbn [commit fst destinations trips bookings].
      repeat split; try done; try lia.
      * by apply prefix_app_r.
      * rewrite length_app. simpl. lia.
    + repeat split; try done; lia.
  - change (let '(db', summary) := seed_data db in (db', Ok (RDoc summary))).1
      with (seed_data db).1.
    rewrite seed_data_bookings. repeat split; try done; lia.
Qed.
End Refused.

(** ** The listing of the bookings *)

Lemma for_each_raises_at (l : list doc) (d : doc) (e : exn) :
  d ∈ l -> parse_booking_date d = Raise e ->
  for_each parse_booking_date l = Raise ValueError.
Proof.
  intros Hin Hd. destruct (for_each parse_booking_date l) as [l'|e'] eqn:E.
  - apply for_each_ok in E.
    apply list_elem_of_lookup in Hin as [i Hi].
    destruct (Forall2_lookup_l _ _ _ _ _ E Hi) as (d' & _ & Hd').
    congruence.
  - by apply for_each_raises in E as ->.
Qed.

Lemma parse_booking_date_frame (d d' : doc) (k : string) :
  parse_booking_date d = Ok d' -> k <> "booking_date" -> d' !! k = d !! k.
Proof.
  unfold parse_booking_date. intros Hp Hk.
  destruct (d !! "booking_date") as [[| | | |s| | | |]|]; try congruence.
  destruct (fromisoformat s); simpl in Hp; [|discriminate].
  injection Hp as <-. by rewrite lookup_insert_ne.
Qed.

Section Listing.
Context `{Validators}.

(** X8: on a store the service filled itself, by any run of requests from
    the empty store, the listing of the bookings returns; it never raises
    there. *)
Theorem get_bookings_on_service_store (reqs : list (request * Z * datetime)) :
  Forall (fun r => valid_datetime (now_utc r.2) = true) reqs ->
  exists l, get_bookings (run reqs empty_db) = Ok l /\
            (length l <= 1000)%nat /\
            length l = min 1000 (length (bookings (run reqs empty_db))).
Proof.
  intros Hreqs.
  assert (Hr : bookings_readable (run reqs empty_db)).
  { apply run_bookings_readable; [done|]. constructor. }
  destruct (for_each_total parse_booking_date
              (to_list 1000 (find [] ["_id"] (bookings (run reqs empty_db)))))
    as [l Hl].
  { eapply Forall_impl; [by apply bookings_readable_listed|].
    intros d. apply parse_booking_date_ok. }
  exists l. split; [exact Hl|].
  apply for_each_ok, Forall2_length in Hl. rewrite <- Hl.
  unfold to_list. rewrite find_all, length_take, length_fmap. lia.
Qed.
End Listing.


(** X10: the bookings after the first 1000 are never read: whatever is
    stored behind 1000 bookings, even a timestamp that cannot be read, the
    listing is what it is without it. *)
Theorem get_bookings_reads_first_1000 (db : database) (more : list doc) :
  (1000 <= length (bookings db))%nat ->
  get_bookings (mk_database (destinations db) (trips db) (bookings db ++ more)
                  (next_oid db)) =
  get_bookings db.
Proof.
  intros Hlen. unfold get_bookings, to_list. cbn [bookings].
  rewrite !find_all, fmap_app, take_app_le; [done|]. by rewrite length_fmap.
Qed.

(** X11: the listing of the bookings changes nothing of a stored booking
    but its timestamp: every listed record is the stored one of the same
    position without [_id], with a string timestamp replaced by the
    timestamp it denotes and any other timestamp left as it is. *)
Theorem get_bookings_changes_only_the_timestamp (db : database) (l : list doc) :
  get_bookings db = Ok l ->
  Forall2 (fun s r : doc =>
      r !! "_id" = None /\
      (forall k, k <> "booking_date" -> k <> "_id" -> r !! k = s !! k) /\
      match s !! "booking_date" with
      | Some (VStr str) =>
          exists t, fromisoformat str = Some t /\
                    r !! "booking_date" = Some (VDatetime t)
      | other => r !! "booking_date" = other
      end)
    (take 1000 (bookings db)) l.
Proof.
  unfold get_bookings, to_list. rewrite find_all, <- fmap_take.
  intros Hl. apply for_each_ok in Hl. apply Forall2_fmap_l in Hl.
  eapply Forall2_impl; [exact Hl|]. clear Hl. intros s r Hr.
  change (parse_booking_date (delete "_id" s) = Ok r) in Hr.
  split; [|split].
  - eapply parse_booking_date_no_oid; [exact Hr|]. apply lookup_delete_eq.
  - intros k Hk Hk'. rewrite (parse_booking_date_frame _ _ k Hr Hk).
    by rewrite lookup_delete_ne.
  - unfold parse_booking_date in Hr. rewrite lookup_delete_ne in Hr by done.
    destruct (s !! "booking_date") as [[| | | |str| | | |]|] eqn:E;
      try (injection Hr as <-; by rewrite lookup_delete_ne).
    destruct (fromisoformat str) as [t|]; [|discriminate].
    cbn [or_raise mbind result_bind] in Hr.
    injection Hr as <-. exists t. split; [done|]. apply lookup_insert_eq.
Qed.

(** X12: every listing is a part of what is stored, in the order of the
    store: the destinations listed are the first stored ones, and the
    trips listed are stored trips in the order in which they were
    inserted, all without [_id]. *)
Theorem listings_in_store_order (db : database) (destination_id : option string) :
  get_destinations db `prefix_of` (delete "_id" <$> destinations db) /\
  get_trips destination_id db `sublist_of` (delete "_id" <$> trips db) /\
  get_trips None db `prefix_of` (delete "_id" <$> trips db).
Proof.
  split; [|split].
  - unfold get_destinations, to_list. rewrite find_all. apply prefix_take.
  - unfold get_trips, to_list, find.
    etrans; [apply sublist_take|]. apply fmap_sublist, filter_sublist.
  - unfold get_trips, to_list. rewrite find_all. apply prefix_take.
Qed.

(** ** Timestamps and identifiers as strings *)

(** X13: two valid timestamps that [isoformat] writes as the same string
    are the same timestamp, with or without an offset: no two instants are
    stored as one string. *)
Theorem isoformat_injective (d1 d2 : datetime) :
  valid_datetime d1 = true -> valid_datetime d2 = true ->
  isoformat d1 = isoformat d2 -> d1 = d2.
Proof.
  intros H1 H2 Heq. apply (f_equal fromisoformat) in Heq.
  rewrite !fromisoformat_isoformat in Heq by done. congruence.
Qed.

Lemma hex_lookup (w : nat) (n : Z) (i : nat) :
  (i < w)%nat ->
  hex w n !! i = Some (hex_char ((n / 16 ^ Z.of_nat (w - 1 - i)) mod 16)).
Proof.
  revert n i. induction w as [|w IH]; intros n i Hi; [lia|].
  cbn [hex]. destruct (decide (i = w)) as [->|Hne].
  - rewrite list_lookup_middle by (by rewrite hex_length).
    replace (S w - 1 - w)%nat with 0%nat by lia.
    by rewrite Z.pow_0_r, Z.div_1_r.
  - rewrite lookup_app_l by (rewrite hex_length; lia).
    rewrite IH by lia. do 3 f_equal.
    replace (S w - 1 - i)%nat with (S (w - 1 - i)) by lia.
    rewrite Nat2Z.inj_succ, Z.pow_succ_r by lia.
    rewrite Z.div_div by lia. reflexivity.
Qed.

Lemma grouped_lookup (h : list ascii) :
  length h = 32%nat ->
  grouped h !! 8%nat = Some "-"%char /\ grouped h !! 13%nat = Some "-"%char /\
  grouped h !! 18%nat = Some "-"%char /\ grouped h !! 23%nat = Some "-"%char /\
  grouped h !! 14%nat = h !! 12%nat.
Proof.
  intros Hlen.
  do 32 (destruct h as [|? h]; [discriminate Hlen|]).
  destruct h; [|discriminate Hlen]. repeat split.
Qed.

(** The version of a UUID of version 4: the four bits from bit 76. *)
Lemma UUID_v4_version (b : Z) : (UUID_v4 b / 16 ^ 19) mod 16 = 4.
Proof.
  change (16 ^ 19) with (2 ^ 76). change 16 with (2 ^ 4).
  rewrite <- Z.shiftr_div_pow2, <- Z.land_ones by lia.
  apply Z.bits_inj'. intros n Hn.
  rewrite Z.land_spec, Z.shiftr_spec, Z.testbit_ones_nonneg by lia.
  destruct (Z.ltb_spec n 4) as [Hlt|Hge].
  - rewrite andb_true_r. unfold UUID_v4.
    rewrite Z.lor_spec, Z.land_spec.
    assert (Hc : n = 0 \/ n = 1 \/ n = 2 \/ n = 3) by lia.
    destruct Hc as [-> | [-> | [-> | ->]]];
      match goal with
      | |- _ && ?m || ?c = _ =>
          change m with false; rewrite andb_false_r; reflexivity
      end.
  - rewrite andb_false_r. symmetry. apply Z.bits_above_log2; simpl; lia.
Qed.

(** X14: every identifier [uuid4] gives is written as 36 characters with
    hyphens after the 8th, 12th, 16th and 20th digit, and its 13th digit is
    the version, 4. *)
Theorem uuid4_str_format (b : Z) :
  String.length (uuid4_str b) = 36%nat /\
  list_ascii_of_string (uuid4_str b) !! 8%nat = Some "-"%char /\
  list_ascii_of_string (uuid4_str b) !! 13%nat = Some "-"%char /\
  list_ascii_of_string (uuid4_str b) !! 18%nat = Some "-"%char /\
  list_ascii_of_string (uuid4_str b) !! 23%nat = Some "-"%char /\
  list_ascii_of_string (uuid4_str b) !! 14%nat = Some "4"%char.
Proof.
  split; [apply UUID_str_length|].
  unfold uuid4_str, UUID_str. rewrite list_ascii_of_string_of_list_ascii.
  destruct (grouped_lookup (hex 32 (UUID_v4 b)) (hex_length _ _))
    as (H8 & H13 & H18 & H23 & H14).
  repeat (split; [assumption|]).
  etrans; [exact H14|]. rewrite hex_lookup by lia.
  change (Z.of_nat (32 - 1 - 12)) with 19. by rewrite UUID_v4_version.
Qed.

Section Errors.
Context `{Validators}.

End Errors.

(** ** Seeding after creating *)

(** X16: the seed forgets what was created: whatever was stored, after the
    seed no trip is found under an identifier that [uuid4] gave, so a trip
    created through the service before is gone. *)
Theorem seed_data_forgets_created (b : Z) (db : database) :
  get_trip (uuid4_str b) (seed_data db).1 =
  Raise (HTTPException 404 "Trip not found").
Proof.
  destruct (get_trip_cases (uuid4_str b) (seed_data db).1)
    as [[Hr _]|(s & Hs & Hid & _)]; [exact Hr|].
  exfalso.
  apply (list_elem_of_fmap_2 (fun t : doc => t !! "id")) in Hs.
  rewrite seed_data_trips, lookup_imap_with_oid in Hs by done.
  rewrite Hid in Hs.
  assert (Hlen : forall x, Some (VStr x) ∈ (fun t : doc => t !! "id") <$> trips_data ->
                           String.length x = 6%nat).
  { intros x Hx. cbn in Hx.
    repeat (apply elem_of_cons in Hx as [[= ->]|Hx]; [reflexivity|]).
    by apply elem_of_nil in Hx. }
  apply Hlen in Hs. unfold uuid4_str in Hs. rewrite UUID_str_length in Hs.
  discriminate.
Qed.

(** ** The further properties at work *)


Lemma get_trip_stable_under_create_witness :
  exists t db' o,
    get_trip "trip-1" (seed_data empty_db).1 = Ok t /\
    @create_trip json_validators a_trip 7 (seed_data empty_db).1 = Ok (db', o) /\
    get_trip "trip-1" db' = Ok t.
Proof.
  assert (Hget : exists t, get_trip "trip-1" (seed_data empty_db).1 = Ok t).
  { eexists. eapply (get_trip_at _ _ []); [reflexivity| |reflexivity].
    intros t Ht. by apply elem_of_nil in Ht. }
  destruct Hget as [t Hget]. exists t.
  destruct (@get_trip_stable_under_create json_validators "trip-1" t a_trip 7
              (seed_data empty_db).1 Hget) as (db' & o & Hc & Hg).
  exists db', o. split; [exact Hget|]. split; [exact Hc|exact Hg].
Defined.

Lemma create_trip_listed_by_destination_witness :
  TripPackageCreate.destination_id a_trip <> "" /\
  (length (trips_of_destination (TripPackageCreate.destination_id a_trip) empty_db)
     < 1000)%nat /\
  exists db' o,
    @create_trip json_validators a_trip 7 empty_db = Ok (db', o) /\
    get_trips (Some "dest-9") db' = [TripPackage.model_dump o].
Proof.
  assert (Hne : TripPackageCreate.destination_id a_trip <> "") by discriminate.
  assert (Hlen : (length (trips_of_destination (TripPackageCreate.destination_id a_trip)
                            empty_db) < 1000)%nat) by (simpl; lia).
  split; [exact Hne|]. split; [exact Hlen|].
  destruct (@create_trip_listed_by_destination json_validators a_trip 7 empty_db Hne Hlen)
    as (db' & o & Hc & Hl & _).
  exists db', o. split; [exact Hc|exact Hl].
Defined.

Lemma missing_field_is_refused_witness :
  (∅ : doc) !! "name" = None /\
  @serve json_validators (POST_destinations ∅) 7 a_clock empty_db =
    (empty_db, Raise ValidationError).
Proof.
  assert (Hk : (∅ : doc) !! "name" = None) by reflexivity.
  split; [exact Hk|].
  apply (proj1 (@missing_field_is_refused json_validators ∅ "name" 7 a_clock empty_db Hk)).
  repeat constructor.
Defined.

Lemma get_bookings_on_service_store_witness :
  Forall (fun r : request * Z * datetime => valid_datetime (now_utc r.2) = true) a_run /\
  exists l, get_bookings (@run json_validators a_run empty_db) = Ok l /\
            (length l <= 1000)%nat /\
            length l = min 1000 (length (bookings (@run json_validators a_run empty_db))).
Proof.
  assert (Hv : Forall (fun r : request * Z * datetime =>
                         valid_datetime (now_utc r.2) = true) a_run)
    by (repeat constructor).
  split; [exact Hv|].
  exact (@get_bookings_on_service_store json_validators a_run Hv).
Defined.


Lemma get_bookings_reads_first_1000_witness :
  (1000 <= length (bookings a_full_store))%nat /\
  get_bookings (mk_database [] [] (bookings a_full_store ++ [a_bad_booking]) 0) =
  get_bookings a_full_store.
Proof.
  assert (Hlen : (1000 <= length (bookings a_full_store))%nat).
  { unfold a_full_store. cbn [bookings]. rewrite length_replicate. lia. }
  split; [exact Hlen|].
  exact (get_bookings_reads_first_1000 a_full_store [a_bad_booking] Hlen).
Defined.

Lemma get_bookings_changes_only_the_timestamp_witness :
  exists l,
    get_bookings (@run json_validators a_run empty_db) = Ok l /\
    Forall2 (fun s r : doc => r !! "_id" = None /\
               forall k, k <> "booking_date" -> k <> "_id" -> r !! k = s !! k)
      (take 1000 (bookings (@run json_validators a_run empty_db))) l.
Proof.
  assert (Hv : Forall (fun r : request * Z * datetime =>
                         valid_datetime (now_utc r.2) = true) a_run)
    by (repeat constructor).
  destruct (@get_bookings_returns json_validators a_run Hv) as [l Hl].
  exists l. split; [exact Hl|].
  eapply Forall2_impl;
    [exact (get_bookings_changes_only_the_timestamp _ l Hl)|].
  intros s r (H1 & H2 & _). split; [exact H1|exact H2].
Defined.

Lemma isoformat_injective_witness :
  valid_datetime (now_utc a_clock) = true /\
  valid_datetime (mk_datetime 2026 1 2 3 4 5 678 (Some 0)) = true /\
  isoformat (now_utc a_clock) = isoformat (mk_datetime 2026 1 2 3 4 5 678 (Some 0)) /\
  now_utc a_clock = mk_datetime 2026 1 2 3 4 5 678 (Some 0).
Proof.
  assert (H1 : valid_datetime (now_utc a_clock) = true) by reflexivity.
  assert (H2 : valid_datetime (mk_datetime 2026 1 2 3 4 5 678 (Some 0)) = true)
    by reflexivity.
  assert (H3 : isoformat (now_utc a_clock) =
               isoformat (mk_datetime 2026 1 2 3 4 5 678 (Some 0))) by reflexivity.
  repeat (split; [assumption|]).
  exact (isoformat_injective _ _ H1 H2 H3).
Defined.

